(** * Curelink Disha front end: chat session, history pagination, transport

    A shallow embedding of [frontend/js/utils.js], [frontend/js/chat.js],
    [frontend/js/scroll.js] and [frontend/js/websocket.js].

    The three JavaScript singletons [Chat], [ScrollManager] and [WS] mutate
    shared objects and the page; here the objects and the part of the page
    they touch are one explicit [State] record threaded through a small
    state-and-exception monad.  An [async] function is split at its [await]:
    a [_begin] half runs up to the request and a [_complete] half resumes with
    the outcome of the request, so that other handlers can run in between as
    they do in the browser.

    Conventions.
    - Strings are ASCII; a timestamp is the number of milliseconds since the
      epoch that [new Date(timestamp)] parses it to.
    - [toDateString] is the calendar day of a timestamp as a day number.
    - Both clock reads of [sendMessage] ([Date.now()] and [new Date()]) are
      arguments.
    - The page is the shipped one: the elements looked up by id exist.
    - Writes that nothing in these files reads back (style classes of the
      send button, the height of the input, the load-more indicator, focus)
      are left out; an assignment to [scrollTop] stores the value assigned. *)

From Stdlib Require Import ZArith List String Ascii Bool Lia DecimalString.
From Stdlib Require Import Sorted Permutation.
Import ListNotations.
Open Scope string_scope.
Open Scope Z_scope.

(** ** utils.js *)

Module Utils.

(** White space of [String.prototype.trim] and of [\s], ASCII part. *)
Definition isWhiteSpace (c : ascii) : bool :=
  match c with
  | " "%char | "009"%char | "010"%char | "011"%char | "012"%char
  | "013"%char => true
  | _ => false
  end.

Fixpoint trimStart (s : string) : string :=
  match s with
  | String c r => if isWhiteSpace c then trimStart r else s
  | EmptyString => EmptyString
  end.

Fixpoint trimEnd (s : string) : string :=
  match s with
  | String c r =>
      match trimEnd r with
      | EmptyString => if isWhiteSpace c then EmptyString else String c EmptyString
      | r' => String c r'
      end
  | EmptyString => EmptyString
  end.

Definition trim (s : string) : string := trimEnd (trimStart s).

(** A string is truthy when it is not empty. *)
Definition truthy (s : string) : bool :=
  match s with EmptyString => false | _ => true end.

Fixpoint forallb_string (p : ascii -> bool) (s : string) : bool :=
  match s with
  | String c r => p c && forallb_string p r
  | EmptyString => true
  end.

(** [\p{Emoji}] on ASCII: the keycap bases [#], [*] and the digits. *)
Definition isEmojiChar (c : ascii) : bool :=
  match c with
  | "#"%char | "*"%char => true
  | _ => let n := nat_of_ascii c in (48 <=? n)%nat && (n <=? 57)%nat
  end.

(** [isEmojiOnly(text)]:
    [/^[\p{Emoji}\s]+$/u.test(text.trim()) && text.trim().length <= 8]. *)
Definition isEmojiOnly (text : string) : bool :=
  let t := trim text in
  (truthy t && forallb_string (fun c => isEmojiChar c || isWhiteSpace c) t)
  && (String.length t <=? 8)%nat.

(** [escapeHtml(text)]: the serialisation of a text node. *)
Fixpoint escapeHtml (text : string) : string :=
  match text with
  | String c r =>
      match c with
      | "&"%char => "&amp;" ++ escapeHtml r
      | "<"%char => "&lt;" ++ escapeHtml r
      | ">"%char => "&gt;" ++ escapeHtml r
      | _ => String c (escapeHtml r)
      end
  | EmptyString => EmptyString
  end.

(** Line terminators, which [.] does not match. *)
Definition isLineTerminator (c : ascii) : bool :=
  match c with
  | "010"%char | "013"%char => true
  | _ => false
  end.

Fixpoint dropString (n : nat) (s : string) : string :=
  match n, s with
  | O, _ => s
  | S n', String _ r => dropString n' r
  | S _, EmptyString => EmptyString
  end.

(** The lazy group [(.*?)] followed by the closing delimiter [d]: the
    shortest run without a line terminator that is followed by [d], and
    what is left after that [d]. *)
Fixpoint lazyGroup (d s : string) : option (string * string) :=
  if String.prefix d s then Some (EmptyString, dropString (String.length d) s)
  else
    match s with
    | String c r =>
        if isLineTerminator c then None
        else
          match lazyGroup d r with
          | Some (g, rest) => Some (String c g, rest)
          | None => None
          end
    | EmptyString => None
    end.

(** [s.replace(/d(.*?)d/g, '<tag>$1</tag>')], scanning left to right;
    [fuel] bounds the number of scanning steps by the length of [s]. *)
Fixpoint replaceDelimited (fuel : nat) (d tag s : string) : string :=
  match fuel with
  | O => s
  | S fuel' =>
      match s with
      | EmptyString => EmptyString
      | String c r =>
          let unmatched := String c (replaceDelimited fuel' d tag r) in
          if String.prefix d s then
            match lazyGroup d (dropString (String.length d) s) with
            | Some (g, rest) =>
                "<" ++ tag ++ ">" ++ g ++ "</" ++ tag ++ ">"
                  ++ replaceDelimited fuel' d tag rest
            | None => unmatched
            end
          else unmatched
      end
  end.

Definition replaceAllDelimited (d tag s : string) : string :=
  replaceDelimited (String.length s) d tag s.

Fixpoint replaceNewlines (s : string) : string :=
  match s with
  | String c r =>
      match c with
      | "010"%char => "<br>" ++ replaceNewlines r
      | _ => String c (replaceNewlines r)
      end
  | EmptyString => EmptyString
  end.

(** [parseFormatting(text)]. *)
Definition parseFormatting (text : string) : string :=
  let formatted := escapeHtml text in
  let formatted := replaceAllDelimited "**" "strong" formatted in
  let formatted := replaceAllDelimited "__" "strong" formatted in
  let formatted := replaceAllDelimited "*" "em" formatted in
  let formatted := replaceAllDelimited "_" "em" formatted in
  replaceNewlines formatted.

End Utils.

(** ** The browser: reading [textContent] back from [innerHTML]

    [parseFormatting] only produces the tags [strong], [em], [br] and the
    entities [&amp;], [&lt;], [&gt;]; reading [textContent] drops the tags and
    decodes the entities.  The parser that the assignment to [innerHTML]
    runs also drops every U+0000 and turns a carriage return into a line
    feed (one line feed for a carriage return followed by a line feed). *)

Fixpoint htmlTextContent (inTag : bool) (html : string) : string :=
  match html with
  | EmptyString => EmptyString
  | String c r =>
      if inTag then htmlTextContent (negb (Ascii.eqb c ">")) r
      else
        match c with
        | "<"%char => htmlTextContent true r
        | "&"%char =>
            match r with
            | String "a" (String "m" (String "p" (String ";" r'))) =>
                String "&" (htmlTextContent false r')
            | String "l" (String "t" (String ";" r')) =>
                String "<" (htmlTextContent false r')
            | String "g" (String "t" (String ";" r')) =>
                String ">" (htmlTextContent false r')
            | _ => String c (htmlTextContent false r)
            end
        | "000"%char => htmlTextContent false r
        | "013"%char =>
            match r with
            | String "010" _ => htmlTextContent false r
            | _ => String "010" (htmlTextContent false r)
            end
        | _ => String c (htmlTextContent false r)
        end
  end.

(** ** Messages and the page *)

Inductive Role : Type := user | assistant.

Definition isUser (r : Role) : bool :=
  match r with user => true | assistant => false end.

(** A message object as parsed from JSON; [id] is [None] when the property
    is missing. *)
Record Message : Type := mkMessage {
  id : option string;
  role : Role;
  content : string;
  timestamp : Z;
  options : list string
}.

(** A [div.message-wrapper]: its [data-message-id], its classes, the
    [textContent] of its [.message-content] child and the option buttons.
    [stamp] is the timestamp whose time of day the [.message-time] child
    shows. *)
Record Wrapper : Type := mkWrapper {
  messageId : string;
  wrapperRole : Role;
  optimistic : bool;
  failed : bool;
  emojiOnly : bool;
  textContent : string;
  stamp : Z;
  optionButtons : list string
}.

(** A child of [#messages-container]. *)
Inductive Node : Type :=
  | MessageWrapper (w : Wrapper)
  | DateDivider (timestamp : Z).

Definition msPerDay : Z := 86400000.

(** [new Date(timestamp).toDateString()]: the calendar day, as the number
    of the day since the epoch.  The day is taken in UTC; in a zone at a
    fixed offset the same holds of the timestamps shifted by that offset.
    Timestamps that do not parse (the string "Invalid Date") are not
    represented. *)
Definition toDateString (timestamp : Z) : Z := timestamp / msPerDay.

(** A request handed to [fetch] by [API.sendMessage] or [API.getMessages]. *)
Inductive Request : Type :=
  | PostMessage (user_id : option string) (content : string)
  | GetMessages (user_id : string) (before : option string) (limit : Z).

(** The fields of [Chat] and [ScrollManager], and what they share with the
    page and the network: the children of the messages container, the input
    field, the send button, the typing indicator, the scroll offset of the
    chat container, the toasts shown, the requests issued (newest first) and
    the user id kept in local storage. *)
Record State : Type := mkState {
  messagesContainer : list Node;
  inputValue : string;
  sendDisabled : bool;
  typingShown : bool;
  userId : option string;
  isSending : bool;
  lastMessageDate : option Z;
  isLoadingMore : bool;
  hasMoreMessages : bool;
  oldestMessageId : option string;
  scrollTop : Z;
  toasts : list (string * string);
  requests : list Request;
  storedUserId : option string
}.

Definition set_messagesContainer (v : list Node) (s : State) : State :=
  mkState v (inputValue s) (sendDisabled s) (typingShown s) (userId s)
    (isSending s) (lastMessageDate s) (isLoadingMore s) (hasMoreMessages s)
    (oldestMessageId s) (scrollTop s) (toasts s) (requests s) (storedUserId s).

Definition set_inputValue (v : string) (s : State) : State :=
  mkState (messagesContainer s) v (sendDisabled s) (typingShown s) (userId s)
    (isSending s) (lastMessageDate s) (isLoadingMore s) (hasMoreMessages s)
    (oldestMessageId s) (scrollTop s) (toasts s) (requests s) (storedUserId s).

Definition set_sendDisabled (v : bool) (s : State) : State :=
  mkState (messagesContainer s) (inputValue s) v (typingShown s) (userId s)
    (isSending s) (lastMessageDate s) (isLoadingMore s) (hasMoreMessages s)
    (oldestMessageId s) (scrollTop s) (toasts s) (requests s) (storedUserId s).

Definition set_typingShown (v : bool) (s : State) : State :=
  mkState (messagesContainer s) (inputValue s) (sendDisabled s) v (userId s)
    (isSending s) (lastMessageDate s) (isLoadingMore s) (hasMoreMessages s)
    (oldestMessageId s) (scrollTop s) (toasts s) (requests s) (storedUserId s).

Definition set_isSending (v : bool) (s : State) : State :=
  mkState (messagesContainer s) (inputValue s) (sendDisabled s) (typingShown s)
    (userId s) v (lastMessageDate s) (isLoadingMore s) (hasMoreMessages s)
    (oldestMessageId s) (scrollTop s) (toasts s) (requests s) (storedUserId s).

Definition set_lastMessageDate (v : option Z) (s : State) : State :=
  mkState (messagesContainer s) (inputValue s) (sendDisabled s) (typingShown s)
    (userId s) (isSending s) v (isLoadingMore s) (hasMoreMessages s)
    (oldestMessageId s) (scrollTop s) (toasts s) (requests s) (storedUserId s).

Definition set_isLoadingMore (v : bool) (s : State) : State :=
  mkState (messagesContainer s) (inputValue s) (sendDisabled s) (typingShown s)
    (userId s) (isSending s) (lastMessageDate s) v (hasMoreMessages s)
    (oldestMessageId s) (scrollTop s) (toasts s) (requests s) (storedUserId s).

Definition set_hasMoreMessages (v : bool) (s : State) : State :=
  mkState (messagesContainer s) (inputValue s) (sendDisabled s) (typingShown s)
    (userId s) (isSending s) (lastMessageDate s) (isLoadingMore s) v
    (oldestMessageId s) (scrollTop s) (toasts s) (requests s) (storedUserId s).

Definition set_oldestMessageId (v : option string) (s : State) : State :=
  mkState (messagesContainer s) (inputValue s) (sendDisabled s) (typingShown s)
    (userId s) (isSending s) (lastMessageDate s) (isLoadingMore s)
    (hasMoreMessages s) v (scrollTop s) (toasts s) (requests s) (storedUserId s).

Definition set_scrollTop (v : Z) (s : State) : State :=
  mkState (messagesContainer s) (inputValue s) (sendDisabled s) (typingShown s)
    (userId s) (isSending s) (lastMessageDate s) (isLoadingMore s)
    (hasMoreMessages s) (oldestMessageId s) v (toasts s) (requests s)
    (storedUserId s).

Definition set_toasts (v : list (string * string)) (s : State) : State :=
  mkState (messagesContainer s) (inputValue s) (sendDisabled s) (typingShown s)
    (userId s) (isSending s) (lastMessageDate s) (isLoadingMore s)
    (hasMoreMessages s) (oldestMessageId s) (scrollTop s) v (requests s)
    (storedUserId s).

Definition set_requests (v : list Request) (s : State) : State :=
  mkState (messagesContainer s) (inputValue s) (sendDisabled s) (typingShown s)
    (userId s) (isSending s) (lastMessageDate s) (isLoadingMore s)
    (hasMoreMessages s) (oldestMessageId s) (scrollTop s) (toasts s) v
    (storedUserId s).

(** ** State and exceptions

    A JavaScript statement either completes normally or throws; what it
    wrote to the shared objects before throwing stays written. *)

Inductive Completion (A : Type) : Type :=
  | Normal (a : A)
  | Thrown (message : string).
Arguments Normal {A} a.
Arguments Thrown {A} message.

Definition M (A : Type) : Type := State -> Completion A * State.

Definition ret {A} (a : A) : M A := fun s => (Normal a, s).

Definition bind {A B} (m : M A) (k : A -> M B) : M B :=
  fun s =>
    match m s with
    | (Normal a, s') => k a s'
    | (Thrown e, s') => (Thrown e, s')
    end.

Definition throw {A} (e : string) : M A := fun s => (Thrown e, s).

Definition get : M State := fun s => (Normal s, s).

Definition modify (f : State -> State) : M unit := fun s => (Normal tt, f s).

(** [try { body } catch (error) { handler(error.message) }]. *)
Definition tryCatch {A} (body : M A) (handler : string -> M A) : M A :=
  fun s =>
    match body s with
    | (Normal a, s') => (Normal a, s')
    | (Thrown e, s') => handler e s'
    end.

(** [try { body } finally { cleanup }], for a [cleanup] that completes
    normally. *)
Definition tryFinally {A} (body : M A) (cleanup : State -> State) : M A :=
  fun s => let (c, s') := body s in (c, cleanup s').

Declare Scope js_scope.
Delimit Scope js_scope with js.
Notation "x <- m ;; k" := (bind m (fun x => k))
  (at level 61, m at next level, right associativity) : js_scope.
Notation "m ;; k" := (bind m (fun _ => k))
  (at level 61, right associativity) : js_scope.
Open Scope js_scope.

Definition execute {A} (m : M A) (s : State) : State := snd (m s).

(** The message of the [TypeError] raised by reading a property of
    [undefined]. *)
Definition typeError : string := "Cannot read properties of undefined".

(** ** chat.js and the synchronous part of scroll.js *)

(** [document.querySelector] restricted to the message wrappers, the only
    elements that carry [data-message-id]: the position of the first wrapper
    in document order that the selector matches.  The position stands for
    the element reference the browser returns. *)
Fixpoint querySelector (sel : Wrapper -> bool) (nodes : list Node) : option nat :=
  match nodes with
  | [] => None
  | MessageWrapper w :: rest =>
      if sel w then Some O else option_map S (querySelector sel rest)
  | DateDivider _ :: rest => option_map S (querySelector sel rest)
  end.

(** Reading through an element reference. *)
Definition wrapperAt (i : nat) (nodes : list Node) : option Wrapper :=
  match nth_error nodes i with
  | Some (MessageWrapper w) => Some w
  | _ => None
  end.

(** Writing through an element reference. *)
Fixpoint updateWrapper (i : nat) (f : Wrapper -> Wrapper) (nodes : list Node)
  : list Node :=
  match nodes, i with
  | [], _ => []
  | MessageWrapper w :: rest, O => MessageWrapper (f w) :: rest
  | n :: rest, O => n :: rest
  | n :: rest, S i' => n :: updateWrapper i' f rest
  end.

(** [[data-message-id^="temp-"]] *)
Definition idStartsWithTemp (w : Wrapper) : bool :=
  String.prefix "temp-" (messageId w).

(** [[data-message-id="..."]] *)
Definition idEquals (i : string) (w : Wrapper) : bool :=
  String.eqb (messageId w) i.

Definition confirmWrapper (newId : string) (w : Wrapper) : Wrapper :=
  mkWrapper newId (wrapperRole w) false (failed w) (emojiOnly w)
    (textContent w) (stamp w) (optionButtons w).

Definition markFailed (w : Wrapper) : Wrapper :=
  mkWrapper (messageId w) (wrapperRole w) (optimistic w) true (emojiOnly w)
    (textContent w) (stamp w) (optionButtons w).

(** [message.id.startsWith('temp-')], a [TypeError] when [id] is missing. *)
Definition startsWithTemp (message : Message) : M bool :=
  match id message with
  | Some i => ret (String.prefix "temp-" i)
  | None => throw typeError
  end.

(** The text the [.message-content] child ends up with. *)
Definition renderedText (content : string) : string :=
  if Utils.isEmojiOnly content then content
  else htmlTextContent false (Utils.parseFormatting content).

(** [dataset.messageId = message.id] stores the string form of the value. *)
Definition datasetString (i : option string) : string :=
  match i with Some s => s | None => "undefined" end.

(** [ScrollManager.scrollToBottom] only registers an animation-frame
    callback; nothing changes before the caller returns. *)
Definition scrollToBottom : M unit := ret tt.

(** [Utils.showToast(message, type)] *)
Definition showToast (message type : string) : M unit :=
  modify (fun s => set_toasts ((message, type) :: toasts s) s).

(** [Chat.showTyping(show)] *)
Definition showTyping (show : bool) : M unit :=
  modify (set_typingShown show) ;;
  if show then scrollToBottom else ret tt.

(** [Chat.handleInputChange()] *)
Definition handleInputChange (s : State) : State :=
  let hasContent := (0 <? String.length (Utils.trim (inputValue s)))%nat in
  set_sendDisabled (negb hasContent || isSending s) s.

(** [Chat.addMessage(message, prepend)] *)
Definition addMessage (message : Message) (prepend : bool) : M unit :=
  reconciled <-
    (if isUser (role message) then
       temp <- startsWithTemp message ;;
       if negb temp then
         s <- get ;;
         match querySelector idStartsWithTemp (messagesContainer s) with
         | Some existing =>
             match wrapperAt existing (messagesContainer s) with
             | Some w =>
                 if String.eqb (textContent w) (content message) then
                   modify (fun s =>
                     set_messagesContainer
                       (updateWrapper existing
                          (confirmWrapper (datasetString (id message)))
                          (messagesContainer s)) s) ;;
                   ret true
                 else ret false
             | None => ret false
             end
         | None => ret false
         end
       else ret false
     else ret false) ;;
  if reconciled : bool then ret tt
  else
    temp <- startsWithTemp message ;;
    let messageDate := toDateString (timestamp message) in
    (if negb prepend then
       s <- get ;;
       if negb (match lastMessageDate s with
                | Some d => d =? messageDate
                | None => false
                end)
       then
         (match lastMessageDate s with
          | Some _ =>
              modify (fun s =>
                set_messagesContainer
                  (messagesContainer s ++ [DateDivider (timestamp message)]) s)
          | None => ret tt
          end) ;;
         modify (set_lastMessageDate (Some messageDate))
       else ret tt
     else ret tt) ;;
    let wrapper :=
      mkWrapper (datasetString (id message)) (role message) temp false
        (Utils.isEmojiOnly (content message))
        (renderedText (content message)) (timestamp message)
        (options message) in
    if prepend then
      modify (fun s =>
        set_messagesContainer (MessageWrapper wrapper :: messagesContainer s) s)
    else
      modify (fun s =>
        set_messagesContainer (messagesContainer s ++ [MessageWrapper wrapper]) s) ;;
      (* an assistant message also schedules a later scrollToBottom *)
      ret tt.

(** [[...messages].sort((a, b) => new Date(a.timestamp) - new Date(b.timestamp))]:
    a stable sort by timestamp. *)
Fixpoint insertByTimestamp (m : Message) (sorted : list Message) : list Message :=
  match sorted with
  | [] => [m]
  | x :: rest =>
      if timestamp m <=? timestamp x then m :: sorted
      else x :: insertByTimestamp m rest
  end.

Definition sortByTimestamp (messages : list Message) : list Message :=
  fold_right insertByTimestamp [] messages.

(** The [forEach] of [prependMessages]: the nodes appended to the fragment,
    given the value of [lastDate] on entry. *)
Fixpoint buildFragment (lastDate : option Z) (sorted : list Message) : list Node :=
  match sorted with
  | [] => []
  | message :: rest =>
      let messageDate := toDateString (timestamp message) in
      let wrapper :=
        mkWrapper (datasetString (id message)) (role message) false false
          (Utils.isEmojiOnly (content message))
          (renderedText (content message)) (timestamp message) [] in
      let sameDate :=
        match lastDate with Some d => d =? messageDate | None => false end in
      if sameDate then
        MessageWrapper wrapper :: buildFragment lastDate rest
      else
        DateDivider (timestamp message) :: MessageWrapper wrapper
          :: buildFragment (Some messageDate) rest
  end.

(** [Chat.prependMessages(messages)] *)
Definition prependMessages (messages : list Message) : M unit :=
  let sorted := sortByTimestamp messages in
  let fragment := buildFragment None sorted in
  modify (fun s => set_messagesContainer (fragment ++ messagesContainer s) s).

(** [ScrollManager.setOldestMessageId], [setHasMore], [reset] *)
Definition setOldestMessageId (i : option string) : M unit :=
  modify (set_oldestMessageId i).

Definition setHasMore (hasMore : bool) : M unit :=
  modify (set_hasMoreMessages hasMore).

Definition reset : M unit :=
  modify (set_isLoadingMore false) ;;
  modify (set_hasMoreMessages true) ;;
  modify (set_oldestMessageId None).

(** [Chat.clear()] *)
Definition clear : M unit :=
  modify (set_messagesContainer []) ;;
  modify (set_lastMessageDate None) ;;
  reset.

(** How an awaited request settles. *)
Inductive Settled (A : Type) : Type :=
  | Fulfilled (response : A)
  | Rejected (message : string).
Arguments Fulfilled {A} response.
Arguments Rejected {A} message.

(** The body of the reply to [POST /api/messages]. *)
Record SendResponse : Type := mkSendResponse {
  assistant_message : option Message
}.

(** The body of the reply to [GET /api/messages]. *)
Record PageResponse : Type := mkPageResponse {
  messages : list Message;
  has_more : bool;
  next_cursor : option string
}.

(** ['temp-' + Date.now()] *)
Definition tempId (dateNow : Z) : string :=
  "temp-" ++ NilZero.string_of_int (Z.to_int dateNow).

(** [text || this.input.value.trim()], [text] being [null] by default. *)
Definition contentToSend (text : option string) (s : State) : string :=
  match text with
  | Some t => if Utils.truthy t then t else Utils.trim (inputValue s)
  | None => Utils.trim (inputValue s)
  end.

Definition textGiven (text : option string) : bool :=
  match text with Some t => Utils.truthy t | None => false end.

(** [Chat.sendMessage(text)] up to its [await]: [None] when the call returns
    at the guard, else the provisional message whose request is now
    outstanding.  [dateNow] is what [Date.now()] returns and [newDate] what
    [new Date()] reads. *)
Definition sendMessage_begin (text : option string) (dateNow newDate : Z)
  : M (option Message) :=
  s <- get ;;
  let content := contentToSend text s in
  if negb (Utils.truthy content) || isSending s then ret None
  else
    modify (set_isSending true) ;;
    modify (set_sendDisabled true) ;;
    let tempUserMsg := mkMessage (Some (tempId dateNow)) user content newDate [] in
    addMessage tempUserMsg false ;;
    scrollToBottom ;;
    (if negb (textGiven text) then modify (set_inputValue "") else ret tt) ;;
    showTyping true ;;
    modify (fun s => set_requests (PostMessage (userId s) content :: requests s) s) ;;
    ret (Some tempUserMsg).

(** The [try] block of [Chat.sendMessage] from the point where
    [API.sendMessage] settles. *)
Definition sendMessage_try (settled : Settled SendResponse) : M unit :=
  match settled with
  | Rejected e => throw e
  | Fulfilled response =>
      showTyping false ;;
      (match assistant_message response with
       | Some m => addMessage m false
       | None => ret tt
       end) ;;
      scrollToBottom
  end.

(** The [catch] block of [Chat.sendMessage]. *)
Definition sendMessage_catch (tempUserMsg : Message) (errorMessage : string)
  : M unit :=
  showToast
    (if Utils.truthy errorMessage then errorMessage
     else "Failed to send message") "error" ;;
  s <- get ;;
  (match querySelector (idEquals (datasetString (id tempUserMsg)))
           (messagesContainer s) with
   | Some tempMsgElement =>
       modify (fun s =>
         set_messagesContainer
           (updateWrapper tempMsgElement markFailed (messagesContainer s)) s)
   | None => ret tt
   end) ;;
  showTyping false.

(** The [finally] block of [Chat.sendMessage]. *)
Definition sendMessage_finally (s : State) : State :=
  handleInputChange (set_isSending false s).

(** [Chat.sendMessage] from the point where [API.sendMessage] settles. *)
Definition sendMessage_complete (tempUserMsg : Message)
  (settled : Settled SendResponse) : M unit :=
  tryFinally
    (tryCatch (sendMessage_try settled) (sendMessage_catch tempUserMsg))
    sendMessage_finally.

(** A whole [sendMessage] call when no other handler runs while its request
    is outstanding. *)
Definition sendMessage (text : option string) (dateNow newDate : Z)
  (settled : Settled SendResponse) : M unit :=
  started <- sendMessage_begin text dateNow newDate ;;
  match started with
  | Some tempUserMsg => sendMessage_complete tempUserMsg settled
  | None => ret tt
  end.

(** [Chat.loadMessages] from the point where [API.getLatestMessages]
    settles. *)
Definition loadMessages_complete (settled : Settled PageResponse) : M unit :=
  tryCatch
    (match settled with
     | Rejected e => throw e
     | Fulfilled response =>
         match messages response with
         | [] => ret tt
         | first :: _ =>
             modify (set_messagesContainer []) ;;
             modify (set_lastMessageDate None) ;;
             fold_left (fun acc message => acc ;; addMessage message false)
               (messages response) (ret tt) ;;
             setHasMore (has_more response) ;;
             setOldestMessageId (id first) ;;
             scrollToBottom
         end
     end)
    (fun _ => showToast "Failed to load messages" "error").

(** ** scroll.js: loading older pages *)

Section Pagination.

(** The layout engine: [container.scrollHeight] as a function of the
    children of the messages container. *)
Variable scrollHeight : list Node -> Z.

(** What [loadOlderMessages] remembers across its [await]. *)
Record Remembered : Type := mkRemembered {
  rememberedScrollHeight : Z;
  rememberedScrollTop : Z
}.

Definition truthyId (i : option string) : bool :=
  match i with Some s => Utils.truthy s | None => false end.

(** [ScrollManager.loadOlderMessages] up to its [await]: [None] when the
    call returns without a request. *)
Definition loadOlderMessages_begin : M (option Remembered) :=
  s <- get ;;
  if isLoadingMore s || negb (hasMoreMessages s)
     || negb (truthyId (oldestMessageId s))
  then ret None
  else
    modify (set_isLoadingMore true) ;;
    s <- get ;;
    match storedUserId s with
    | Some uid =>
        if Utils.truthy uid then
          let remembered :=
            mkRemembered (scrollHeight (messagesContainer s)) (scrollTop s) in
          modify (fun s =>
            set_requests (GetMessages uid (oldestMessageId s) 20 :: requests s) s) ;;
          ret (Some remembered)
        else modify (set_isLoadingMore false) ;; ret None
    | None => modify (set_isLoadingMore false) ;; ret None
    end.

(** [response.next_cursor || response.messages[0].id] *)
Definition nextOldestId (response : PageResponse) (first : Message)
  : option string :=
  if truthyId (next_cursor response) then next_cursor response else id first.

(** [ScrollManager.loadOlderMessages] from the point where
    [API.getMessages] settles. *)
Definition loadOlderMessages_complete (remembered : Remembered)
  (settled : Settled PageResponse) : M unit :=
  tryFinally
    (tryCatch
       (match settled with
        | Rejected e => throw e
        | Fulfilled response =>
            match messages response with
            | first :: _ =>
                modify (set_oldestMessageId (nextOldestId response first)) ;;
                modify (set_hasMoreMessages (has_more response)) ;;
                prependMessages (messages response) ;;
                s <- get ;;
                let newScrollHeight := scrollHeight (messagesContainer s) in
                modify (set_scrollTop
                  (rememberedScrollTop remembered
                   + (newScrollHeight - rememberedScrollHeight remembered)))
            | [] => modify (set_hasMoreMessages false)
            end
        end)
       (fun _ => showToast "Failed to load older messages" "error"))
    (set_isLoadingMore false).

(** A whole [loadOlderMessages] call when no other handler runs while its
    request is outstanding. *)
Definition loadOlderMessages (settled : Settled PageResponse) : M unit :=
  started <- loadOlderMessages_begin ;;
  match started with
  | Some remembered => loadOlderMessages_complete remembered settled
  | None => ret tt
  end.

(** The user scrolling the chat container. *)
Definition userScroll (offset : Z) : M unit := modify (set_scrollTop offset).

End Pagination.

(** ** websocket.js *)

Module WS.

Inductive ReadyState : Type := CONNECTING | OPEN | CLOSING | CLOSED.

Definition reconnectInterval : Z := 3000.
Definition maxReconnectAttempts : nat := 5.

(** The fields of [WS] and what the browser holds for it: every
    [WebSocket] constructed so far (oldest first, [this.socket] is the last
    one), the delays of the pending [setTimeout(() => this.connect(), ...)]
    callbacks, the handle kept in [this.pingInterval] (named after the socket
    whose [onopen] created it) and the interval timers still running. *)
Record Transport : Type := mkTransport {
  sockets : list ReadyState;
  reconnectAttempts : nat;
  reconnectTimers : list Z;
  pingInterval : option nat;
  runningIntervals : list nat
}.

(** The object as the script declares it, before [init]. *)
Definition declared : Transport := mkTransport [] 0 [] None [].

(** [WS.connect()] *)
Definition connect (t : Transport) : Transport :=
  mkTransport (sockets t ++ [CONNECTING]) (reconnectAttempts t)
    (reconnectTimers t) (pingInterval t) (runningIntervals t).

(** [WS.init(userId)] *)
Definition init (t : Transport) : Transport := connect t.

Fixpoint setReadyState (i : nat) (r : ReadyState) (l : list ReadyState)
  : list ReadyState :=
  match l, i with
  | [], _ => []
  | _ :: rest, O => r :: rest
  | x :: rest, S i' => x :: setReadyState i' r rest
  end.

(** [socket.onopen] of socket [i] *)
Definition onopen (i : nat) (t : Transport) : Transport :=
  mkTransport (setReadyState i OPEN (sockets t)) 0 (reconnectTimers t)
    (Some i) (i :: runningIntervals t).

Definition clearInterval (handle : option nat) (running : list nat) : list nat :=
  match handle with
  | Some h => filter (fun x => negb (Nat.eqb x h)) running
  | None => running
  end.

(** [socket.onclose] of socket [i] *)
Definition onclose (i : nat) (t : Transport) : Transport :=
  let running := clearInterval (pingInterval t) (runningIntervals t) in
  if (reconnectAttempts t <? maxReconnectAttempts)%nat then
    mkTransport (setReadyState i CLOSED (sockets t))
      (S (reconnectAttempts t))
      (reconnectTimers t ++ [reconnectInterval])
      (pingInterval t) running
  else
    mkTransport (setReadyState i CLOSED (sockets t)) (reconnectAttempts t)
      (reconnectTimers t) (pingInterval t) running.

(** The closing handshake of socket [i] starts, by [socket.close()] or from
    the other side: the socket is [CLOSING] until its [close] event.  No
    handler of [WS] runs. *)
Definition closing (i : nat) (t : Transport) : Transport :=
  mkTransport (setReadyState i CLOSING (sockets t)) (reconnectAttempts t)
    (reconnectTimers t) (pingInterval t) (runningIntervals t).

(** The [readyState] of [this.socket], the socket constructed last. *)
Definition socket (t : Transport) : option ReadyState :=
  nth_error (sockets t) (Nat.pred (List.length (sockets t))).

(** [WS.close()]: [if (this.socket) this.socket.close()]. *)
Definition close (t : Transport) : Transport :=
  match socket t with
  | Some CONNECTING | Some OPEN => closing (Nat.pred (List.length (sockets t))) t
  | _ => t
  end.

(** The callback of the keepalive interval: whether it sends a ping,
    [this.socket.readyState === WebSocket.OPEN]. *)
Definition pingCallback (t : Transport) : bool :=
  match socket t with
  | Some OPEN => true
  | _ => false
  end.

(** [socket.onerror] only logs. *)
Definition onerror (i : nat) (t : Transport) : Transport := t.

(** [WS.handleEvent(data)]: the call it makes on [Chat], if any. *)
Definition handleEvent (event : string) : option bool :=
  if String.eqb event "typing_start" then Some true
  else if String.eqb event "typing_end" then Some false
  else None.

(** [socket.onmessage]: [data] is [None] for a frame that [JSON.parse]
    rejects. *)
Definition onmessage (data : option string) : M unit :=
  match data with
  | Some event =>
      match handleEvent event with
      | Some show => showTyping show
      | None => ret tt
      end
  | None => ret tt
  end.

Fixpoint removeNth {A} (k : nat) (l : list A) : list A :=
  match l, k with
  | [], _ => []
  | _ :: rest, O => rest
  | x :: rest, S k' => x :: removeNth k' rest
  end.

(** What can happen to the transport: the application calls [connect], a
    socket fires one of its events, a pending reconnect timer fires, or the
    closing handshake of a socket starts. *)
Inductive Event : Type :=
  | ExternalConnect
  | SocketOpen (i : nat)
  | SocketClose (i : nat)
  | SocketError (i : nat)
  | TimerFires (k : nat)
  | SocketClosing (i : nat).

(** The browser fires [open] on a connecting socket only, [close] once on a
    socket that is not yet closed, and a timer only while it is pending; a
    socket starts closing once, while it is connecting or open. *)
Inductive step : Transport -> Event -> Transport -> Prop :=
  | step_connect t :
      step t ExternalConnect (connect t)
  | step_open t i :
      nth_error (sockets t) i = Some CONNECTING ->
      step t (SocketOpen i) (onopen i t)
  | step_close t i r :
      nth_error (sockets t) i = Some r -> r <> CLOSED ->
      step t (SocketClose i) (onclose i t)
  | step_error t i r :
      nth_error (sockets t) i = Some r -> r <> CLOSED ->
      step t (SocketError i) (onerror i t)
  | step_timer t k delay :
      nth_error (reconnectTimers t) k = Some delay ->
      step t (TimerFires k)
        (connect (mkTransport (sockets t) (reconnectAttempts t)
                    (removeNth k (reconnectTimers t)) (pingInterval t)
                    (runningIntervals t)))
  | step_closing t i r :
      nth_error (sockets t) i = Some r -> r <> CLOSING -> r <> CLOSED ->
      step t (SocketClosing i) (closing i t).

Inductive run : Transport -> list Event -> Transport -> Prop :=
  | run_nil t : run t [] t
  | run_cons t e t' es t'' : step t e t' -> run t' es t'' -> run t (e :: es) t''.

Definition isReconnect (e : Event) : bool :=
  match e with TimerFires _ => true | _ => false end.

Definition isExternalConnect (e : Event) : bool :=
  match e with ExternalConnect => true | _ => false end.

Definition isOpen (e : Event) : bool :=
  match e with SocketOpen _ => true | _ => false end.

(** The number of automatic reconnect attempts in a run. *)
Definition reconnects (es : list Event) : nat :=
  List.length (filter isReconnect es).

Definition allClosed (t : Transport) : Prop :=
  forall i r, nth_error (sockets t) i = Some r -> r = CLOSED.

End WS.

(** ** Vocabulary of the properties *)

(** Each insertion is a separate call; one that throws ends there and keeps
    what it wrote. *)
Inductive Insertion : Type :=
  | Append (message : Message)
  | Prepend (message : Message)
  | PrependPage (page : list Message).

Definition insertion (op : Insertion) : M unit :=
  match op with
  | Append m => addMessage m false
  | Prepend m => addMessage m true
  | PrependPage page => prependMessages page
  end.

Fixpoint insertAll (ops : list Insertion) (s : State) : State :=
  match ops with
  | [] => s
  | op :: rest => insertAll rest (execute (insertion op) s)
  end.

(** A chat as [Chat.clear] or [loadMessages] leaves it before adding. *)
Definition cleared (s : State) : Prop :=
  messagesContainer s = [] /\ lastMessageDate s = None.

(** Reading the children top to bottom, [prev] is the calendar day of the
    last message seen and [divided] tells whether a divider came after it.
    A divider needs a message before it and none directly before itself; a
    message follows a divider exactly when its day differs from the day of
    the message before; the list does not end with a divider. *)
Fixpoint dividersExactFrom (prev : option Z) (divided : bool) (nodes : list Node)
  : bool :=
  match nodes with
  | [] => negb divided
  | DateDivider _ :: rest =>
      negb divided
      && match prev with Some _ => true | None => false end
      && dividersExactFrom prev true rest
  | MessageWrapper w :: rest =>
      match prev with
      | Some d => Bool.eqb divided (negb (d =? toDateString (stamp w)))
      | None => negb divided
      end
      && dividersExactFrom (Some (toDateString (stamp w))) false rest
  end.

(** Dividers sit exactly between adjacent messages of different days. *)
Definition dividersExact (nodes : list Node) : bool :=
  dividersExactFrom None false nodes.

(** The day of the last message of [nodes], or [prev] when there is none. *)
Fixpoint lastDateFrom (prev : option Z) (nodes : list Node) : option Z :=
  match nodes with
  | [] => prev
  | DateDivider _ :: rest => lastDateFrom prev rest
  | MessageWrapper w :: rest => lastDateFrom (Some (toDateString (stamp w))) rest
  end.

(** The message wrappers among the children, in order. *)
Fixpoint wrappers (nodes : list Node) : list Wrapper :=
  match nodes with
  | [] => []
  | MessageWrapper w :: rest => w :: wrappers rest
  | DateDivider _ :: rest => wrappers rest
  end.

(** The entries that show [text]. *)
Definition entriesShowing (text : string) (nodes : list Node) : list Wrapper :=
  filter (fun w => String.eqb (textContent w) text) (wrappers nodes).

(** The wrapper that [sendMessage] appends for its provisional message. *)
Definition provisionalWrapper (dateNow newDate : Z) (content : string)
  (isFailed : bool) : Wrapper :=
  mkWrapper (tempId dateNow) user true isFailed (Utils.isEmojiOnly content)
    (renderedText content) newDate [].

(** A page just opened for user [u1]: nothing loaded, nothing typed. *)
Definition freshPage : State :=
  mkState [] "" true false (Some "u1") false None false true None 0 [] []
    (Some "u1").

(** The layout used in the examples: every child is 40 pixels high. *)
Definition rowLayout (nodes : list Node) : Z := 40 * Z.of_nat (List.length nodes).

(** The reply to the first load: one message, more history on the server. *)
Definition latestPage : PageResponse :=
  mkPageResponse [mkMessage (Some "m10") assistant "Welcome" 90000000 []] true None.

(** The chat after the first load, scrolled to offset 50. *)
Definition historyLoaded : State :=
  execute (userScroll 50)
    (execute (loadMessages_complete (Fulfilled latestPage)) freshPage).

(** An older page: one message of the day before. *)
Definition olderPage : PageResponse :=
  mkPageResponse [mkMessage (Some "m9") user "Hi" 1000 []] false None.

(** What the append path keeps true: the dividers are exact and
    [lastMessageDate] is the day of the last message shown. *)
Definition appendInvariant (s : State) : Prop :=
  dividersExact (messagesContainer s) = true
  /\ lastMessageDate s = lastDateFrom None (messagesContainer s).

(** A run in which no socket opens and the application does not call
    [connect]: every connection attempt made in it fails or stays pending. *)
Definition failing (es : list WS.Event) : bool :=
  forallb (fun e => negb (WS.isOpen e) && negb (WS.isExternalConnect e)) es.

(** A run without a call of [connect] by the application. *)
Definition automatic (es : list WS.Event) : bool :=
  forallb (fun e => negb (WS.isExternalConnect e)) es.

(** The server is down: the first connection and each of the five
    reconnects is closed without having opened. *)
Definition serverDown : list WS.Event :=
  [WS.SocketClose 0; WS.TimerFires 0; WS.SocketClose 1; WS.TimerFires 0;
   WS.SocketClose 2; WS.TimerFires 0; WS.SocketClose 3; WS.TimerFires 0;
   WS.SocketClose 4; WS.TimerFires 0; WS.SocketClose 5].

(** The transport after [serverDown]. *)
Definition givenUp : WS.Transport :=
  WS.mkTransport
    [WS.CLOSED; WS.CLOSED; WS.CLOSED; WS.CLOSED; WS.CLOSED; WS.CLOSED] 5 [] None [].

(** ** Further vocabulary *)

(** [a] does not occur in [s]. *)
Definition noChar (a : ascii) (s : string) : bool :=
  Utils.forallb_string (fun c => negb (Ascii.eqb c a)) s.

(** Text without emphasis marks, without line breaks and without
    U+0000. *)
Definition plainText (s : string) : bool :=
  noChar "*" s && noChar "_" s && noChar "010" s && noChar "013" s
  && noChar "000" s.

(** [ScrollManager.handleScroll()]; the result is that of the
    [loadOlderMessages] call it may make. *)
Definition handleScroll (scrollHeight : list Node -> Z) : M (option Remembered) :=
  s <- get ;;
  if (scrollTop s <? 100) && negb (isLoadingMore s) && hasMoreMessages s
  then loadOlderMessages_begin scrollHeight
  else ret None.

(** The wrapper [prependMessages] builds for a message of a page. *)
Definition pageWrapper (m : Message) : Wrapper :=
  mkWrapper (datasetString (id m)) (role m) false false
    (Utils.isEmojiOnly (content m)) (renderedText (content m)) (timestamp m) [].

(** The wrapper [addMessage] builds for a message. *)
Definition shownWrapper (m : Message) : Wrapper :=
  mkWrapper (datasetString (id m)) (role m)
    (match id m with Some i => String.prefix "temp-" i | None => false end)
    false (Utils.isEmojiOnly (content m)) (renderedText (content m))
    (timestamp m) (options m).

(** A message with an id outside the provisional namespace. *)
Definition confirmed (m : Message) : bool :=
  match id m with
  | Some i => negb (String.prefix "temp-" i)
  | None => false
  end.

Definition isLive (r : WS.ReadyState) : bool :=
  match r with WS.CLOSED => false | _ => true end.

(** The transport has one connection at a time: only the socket
    constructed last can be other than closed, at most one reconnect is
    pending and then no socket is alive, and the only keepalive timer that
    can be running is the one of that socket, open or closing. *)
Definition oneConnection (t : WS.Transport) : Prop :=
  (forall i r,
     nth_error (WS.sockets t) i = Some r -> isLive r = true ->
     S i = List.length (WS.sockets t))
  /\ (List.length (WS.reconnectTimers t) <= 1)%nat
  /\ (WS.reconnectTimers t <> [] -> WS.allClosed t)
  /\ (WS.runningIntervals t = []
      \/ exists i,
           WS.runningIntervals t = [i] /\ WS.pingInterval t = Some i
           /\ (nth_error (WS.sockets t) i = Some WS.OPEN
               \/ nth_error (WS.sockets t) i = Some WS.CLOSING)).

(** ** The API client (the second script of websocket.js) *)

Module API.

(** An exception object: its [name] and its [message]. *)
Record JsError : Type := mkError { name : string; message : string }.

(** What [response.json()] yields: the parsed body, and its [detail]
    property when it has one. *)
Record Parsed (A : Type) : Type := mkParsed { data : A; detail : option string }.
Arguments mkParsed {A} data detail.
Arguments data {A} p.
Arguments detail {A} p.

(** How [fetch] settles: it rejects, or it resolves with a response of some
    status whose body parses as JSON or makes [response.json()] throw. *)
Inductive Fetched (A : Type) : Type :=
  | FetchRejected (error : JsError)
  | Response (status : Z) (json : JsError + Parsed A).
Arguments FetchRejected {A} error.
Arguments Response {A} status json.

(** [response.ok] *)
Definition ok (status : Z) : bool := (200 <=? status) && (status <=? 299).

(** [hay.includes(needle)] *)
Fixpoint includes (needle hay : string) : bool :=
  String.prefix needle hay
  || match hay with
     | String _ rest => includes needle rest
     | EmptyString => false
     end.

Definition tooManyMessages : string :=
  "Too many messages. Please slow down and try again in a minute.".
Definition serverError : string := "Server error. Please try again later.".
Definition unableToConnect : string :=
  "Unable to connect to server. Please check your connection.".

(** The [try] block of [API.request]. *)
Definition request_try {A} (fetched : Fetched A) : JsError + A :=
  match fetched with
  | FetchRejected error => inl error
  | Response status json =>
      if status =? 429 then inl (mkError "Error" tooManyMessages)
      else if 500 <=? status then inl (mkError "Error" serverError)
      else
        match json with
        | inl error => inl error
        | inr parsed =>
            if negb (ok status) then
              inl (mkError "Error"
                     (match detail parsed with
                      | Some d => if Utils.truthy d then d else "An error occurred"
                      | None => "An error occurred"
                      end))
            else inr (data parsed)
        end
  end.

(** [API.request(endpoint, options)], given how its [fetch] settles. *)
Definition request {A} (fetched : Fetched A) : JsError + A :=
  match request_try fetched with
  | inl error =>
      if String.eqb (name error) "TypeError" && includes "fetch" (message error)
      then inl (mkError "Error" unableToConnect)
      else inl error
  | inr data => inr data
  end.

(** What a caller that awaits the request inside [try]/[catch] gets. *)
Definition settle {A} (r : JsError + A) : Settled A :=
  match r with
  | inl error => Rejected (message error)
  | inr data => Fulfilled data
  end.

End API.

(** ** [Utils.throttle] *)

(** What can happen to a throttled function: it is called, or the timer
    set by the last call that went through expires. *)
Inductive ThrottleEvent : Type := ThrottledCall | ThrottleExpires.

(** One event on the closure of [Utils.throttle(func, limit)]: whether
    [func] runs, and the new value of [inThrottle]. *)
Definition throttleStep (inThrottle : bool) (e : ThrottleEvent) : bool * bool :=
  match e with
  | ThrottledCall => if inThrottle then (false, true) else (true, true)
  | ThrottleExpires => (false, false)
  end.

(** The number of times [func] runs over a sequence of events. *)
Fixpoint throttledRuns (inThrottle : bool) (es : list ThrottleEvent) : nat :=
  match es with
  | [] => 0
  | e :: rest =>
      let (ran, inThrottle') := throttleStep inThrottle e in
      (if ran then 1 else 0) + throttledRuns inThrottle' rest
  end.

Definition isExpiry (e : ThrottleEvent) : bool :=
  match e with ThrottleExpires => true | ThrottledCall => false end.

(** ** A conversation *)

(** What the user and the server do in a conversation without paging back:
    the first page arrives, or a message is sent and its request settles. *)
Inductive SessionStep : Type :=
  | FirstLoad (settled : Settled PageResponse)
  | Send (text : option string) (dateNow newDate : Z)
      (settled : Settled SendResponse).

Definition sessionStep (step : SessionStep) : M unit :=
  match step with
  | FirstLoad settled => loadMessages_complete settled
  | Send text dateNow newDate settled => sendMessage text dateNow newDate settled
  end.

Fixpoint session (steps : list SessionStep) (s : State) : State :=
  match steps with
  | [] => s
  | step :: rest => session rest (execute (sessionStep step) s)
  end.

(** The part of the state that showing messages leaves alone. *)
Definition sameSession (s s' : State) : Prop :=
  userId s' = userId s /\ isSending s' = isSending s
  /\ isLoadingMore s' = isLoadingMore s /\ scrollTop s' = scrollTop s
  /\ requests s' = requests s /\ storedUserId s' = storedUserId s
  /\ inputValue s' = inputValue s.

(** ** A chat long enough to scroll *)

(** [n] messages of the assistant, one second apart, from [start] on. *)
Fixpoint messagesFrom (n : nat) (start : Z) : list Message :=
  match n with
  | O => []
  | S k =>
      mkMessage (Some ("m" ++ NilZero.string_of_int (Z.to_int start))) assistant
        "Welcome" start []
      :: messagesFrom k (start + 1000)
  end.

(** The height of the chat container in the examples: with [rowLayout],
    fifteen children fill it. *)
Definition viewport : Z := 600.

(** The chat after a first load of twenty messages of one day (extent 800
    with [rowLayout]), scrolled to offset 50 of the 200 it can scroll. *)
Definition longHistory : State :=
  execute (userScroll 50)
    (execute
       (loadMessages_complete
          (Fulfilled (mkPageResponse (messagesFrom 20 90000000) true None)))
       freshPage).

(** * Properties *)

(** ** The monad *)

(** Split on an innermost test of the goal. *)
Ltac case_step :=
  match goal with
  | |- context [match ?x with _ => _ end] =>
      lazymatch x with
      | context [match _ with _ => _ end] => fail
      | _ => destruct x eqn:?; simpl in *
      end
  end.

Ltac unfold_js :=
  unfold bind, ret, get, modify, throw, tryCatch, tryFinally, execute in *.

Lemma execute_bind {A B} (m : M A) (k : A -> M B) (s : State) (a : A) (s' : State) :
  m s = (Normal a, s') -> bind m k s = k a s'.
Proof. intros H. unfold bind. now rewrite H. Qed.

(** ** [addMessage] *)

(** [addMessage] with an [id] never throws. *)
Lemma addMessage_normal (message : Message) (prepend : bool) (s : State) :
  id message <> None -> fst (addMessage message prepend s) = Normal tt.
Proof.
  intros Hid. destruct (id message) as [i|] eqn:Ei; [|congruence].
  unfold addMessage, startsWithTemp. rewrite Ei. unfold_js.
  repeat case_step; try reflexivity; try discriminate.
Qed.

Lemma prefix_empty (s : string) : String.prefix "" s = true.
Proof. destruct s; reflexivity. Qed.

(** A provisional id lies in the [temp-] namespace. *)
Lemma tempId_temp (dateNow : Z) : String.prefix "temp-" (tempId dateNow) = true.
Proof. unfold tempId. simpl. apply prefix_empty. Qed.

Arguments tempId : simpl never.

(** A provisional message is appended after the children already there,
    behind a divider when the day changed. *)
Lemma addMessage_provisional (dateNow newDate : Z) (text : string) (s : State) :
  exists dividers,
    addMessage (mkMessage (Some (tempId dateNow)) user text newDate []) false s
    = (Normal tt,
       set_messagesContainer
         (messagesContainer s ++ dividers
            ++ [MessageWrapper (provisionalWrapper dateNow newDate text false)])
         (set_lastMessageDate
            (match lastMessageDate s with
             | Some d => if d =? toDateString newDate then lastMessageDate s
                         else Some (toDateString newDate)
             | None => Some (toDateString newDate)
             end) s)).
Proof.
  unfold addMessage, startsWithTemp. cbn [id role isUser timestamp content options].
  rewrite tempId_temp. unfold_js. cbn [negb datasetString].
  unfold provisionalWrapper.
  destruct (lastMessageDate s) as [d|] eqn:El; simpl.
  - destruct (d =? toDateString newDate) eqn:Ed; simpl.
    + exists []. simpl. destruct s; simpl in *. subst. reflexivity.
    + exists [DateDivider newDate]. rewrite <- app_assoc. simpl.
      destruct s; simpl in *. reflexivity.
  - exists []. destruct s; simpl in *. reflexivity.
Qed.

(** ** [sendMessage] *)

(** The guard of [sendMessage]: with a send outstanding the call changes
    nothing. *)
Lemma sendMessage_begin_guarded (text : option string) (dateNow newDate : Z)
  (s : State) :
  isSending s = true ->
  sendMessage_begin text dateNow newDate s = (Normal None, s).
Proof.
  intros H. unfold sendMessage_begin. unfold_js. rewrite H.
  now rewrite orb_true_r.
Qed.

(** With nothing to send the call changes nothing. *)
Lemma sendMessage_begin_empty (text : option string) (dateNow newDate : Z)
  (s : State) :
  Utils.truthy (contentToSend text s) = false ->
  sendMessage_begin text dateNow newDate s = (Normal None, s).
Proof.
  intros H. unfold sendMessage_begin. unfold_js. now rewrite H.
Qed.

(** An accepted call takes the guard, appends the provisional entry and
    issues one request. *)
Lemma sendMessage_begin_started (text : option string) (dateNow newDate : Z)
  (s : State) :
  isSending s = false ->
  Utils.truthy (contentToSend text s) = true ->
  exists dividers s1,
    sendMessage_begin text dateNow newDate s
    = (Normal (Some (mkMessage (Some (tempId dateNow)) user
                       (contentToSend text s) newDate [])), s1)
    /\ messagesContainer s1
       = (messagesContainer s ++ dividers
            ++ [MessageWrapper
                  (provisionalWrapper dateNow newDate (contentToSend text s) false)])%list
    /\ isSending s1 = true
    /\ requests s1 = PostMessage (userId s) (contentToSend text s) :: requests s
    /\ toasts s1 = toasts s.
Proof.
  intros Hs Hc. unfold sendMessage_begin. unfold_js. rewrite Hs, Hc. simpl.
  destruct (addMessage_provisional dateNow newDate (contentToSend text s)
              (set_sendDisabled true (set_isSending true s))) as [dividers E].
  rewrite E. exists dividers.
  destruct (textGiven text); simpl; eexists; repeat split; reflexivity.
Qed.

(** The [catch] block completes normally: it shows one toast and leaves as
    many children as it found. *)
Lemma sendMessage_catch_normal (tempUserMsg : Message) (e : string) (s : State) :
  exists s',
    sendMessage_catch tempUserMsg e s = (Normal tt, s')
    /\ toasts s'
       = ((if Utils.truthy e then e else "Failed to send message"), "error")
           :: toasts s
    /\ messagesContainer s'
       = match querySelector (idEquals (datasetString (id tempUserMsg)))
                 (messagesContainer s) with
         | Some i => updateWrapper i markFailed (messagesContainer s)
         | None => messagesContainer s
         end.
Proof.
  unfold sendMessage_catch, showToast, showTyping. unfold_js. simpl.
  destruct (querySelector _ (messagesContainer s)); simpl;
    eexists; repeat split; reflexivity.
Qed.

(** Every completion path of an outstanding send returns normally with the
    guard released. *)
Lemma sendMessage_complete_releases (tempUserMsg : Message)
  (settled : Settled SendResponse) (s : State) :
  fst (sendMessage_complete tempUserMsg settled s) = Normal tt
  /\ isSending (snd (sendMessage_complete tempUserMsg settled s)) = false.
Proof.
  unfold sendMessage_complete, tryFinally, tryCatch.
  destruct (sendMessage_try settled s) as [[[]|e] s1] eqn:Et; simpl.
  - split; reflexivity.
  - destruct (sendMessage_catch_normal tempUserMsg e s1) as [s2 [E _]].
    rewrite E. simpl. split; reflexivity.
Qed.

(** C3 (single flight, guard release). While a send is outstanding
    ([isSending] true) a call of [sendMessage] returns at once and leaves
    the whole state as it was: no second provisional entry, no second
    request.  An accepted call leaves [isSending] true, so it is outstanding
    in this sense.  When the outstanding request settles, whether it is
    fulfilled, rejected, or the reply makes [addMessage] throw, the call
    returns normally with [isSending] false. *)
Theorem sendMessage_single_flight
  (s : State) (text text' : option string) (dateNow newDate dateNow' newDate' : Z)
  (tempUserMsg : Message) (settled : Settled SendResponse) :
  (isSending s = true ->
   sendMessage_begin text dateNow newDate s = (Normal None, s))
  /\ (forall started s1,
        sendMessage_begin text dateNow newDate s = (Normal (Some started), s1) ->
        isSending s1 = true
        /\ sendMessage_begin text' dateNow' newDate' s1 = (Normal None, s1))
  /\ fst (sendMessage_complete tempUserMsg settled s) = Normal tt
  /\ isSending (snd (sendMessage_complete tempUserMsg settled s)) = false.
Proof.
  split; [apply sendMessage_begin_guarded|].
  split; [|apply sendMessage_complete_releases].
  intros started s1 H.
  assert (Hs1 : isSending s1 = true).
  { destruct (isSending s) eqn:Hs.
    - rewrite sendMessage_begin_guarded in H by assumption. discriminate.
    - destruct (Utils.truthy (contentToSend text s)) eqn:Hc.
      + destruct (sendMessage_begin_started text dateNow newDate s Hs Hc)
          as [dv [s1' [E [_ [Hg _]]]]].
        rewrite E in H. injection H as _ <-. exact Hg.
      + rewrite sendMessage_begin_empty in H by assumption. discriminate. }
  split; [exact Hs1|]. now apply sendMessage_begin_guarded.
Qed.

Lemma sendMessage_single_flight_witness :
  isSending (snd (sendMessage_begin (Some "Hi") 1 1 freshPage)) = true
  /\ sendMessage_begin (Some "again") 2 2
       (snd (sendMessage_begin (Some "Hi") 1 1 freshPage))
     = (Normal None, snd (sendMessage_begin (Some "Hi") 1 1 freshPage)).
Proof.
  split; [reflexivity|].
  exact (proj1 (sendMessage_single_flight
                  (snd (sendMessage_begin (Some "Hi") 1 1 freshPage))
                  (Some "again") None 2 2 3 3
                  (mkMessage None user "" 0 []) (Rejected "")) eq_refl).
Defined.

(** Content typed in the input field is trimmed before the test: a field
    holding only white space sends nothing. *)
Lemma sendMessage_rejects_blank_input (dateNow newDate : Z) (s : State) :
  Utils.trim (inputValue s) = "" ->
  sendMessage_begin None dateNow newDate s = (Normal None, s).
Proof.
  intros H. apply sendMessage_begin_empty. simpl. now rewrite H.
Qed.

(** C9 (empty content), at the failing input: [sendMessage(" ")], the
    text being one space as a quick-reply option can carry it.  The text is
    empty after trimming, yet the call is accepted: a provisional entry
    showing the space is appended and a request carrying it is issued.  Only
    the input field is trimmed, not the [text] argument. *)
Theorem sendMessage_sends_blank_text :
  Utils.trim " " = ""
  /\ sendMessage_begin None 7 7 (set_inputValue " " freshPage)
     = (Normal None, set_inputValue " " freshPage)
  /\ fst (sendMessage_begin (Some " ") 7 7 freshPage)
     = Normal (Some (mkMessage (Some "temp-7") user " " 7 []))
  /\ messagesContainer (snd (sendMessage_begin (Some " ") 7 7 freshPage))
     = [MessageWrapper (mkWrapper "temp-7" user true false false " " 7 [])]
  /\ requests (snd (sendMessage_begin (Some " ") 7 7 freshPage))
     = [PostMessage (Some "u1") " "].
Proof. repeat split; reflexivity. Qed.

(** ** Element references *)

Lemma querySelector_bound (sel : Wrapper -> bool) (nodes : list Node) (i : nat) :
  querySelector sel nodes = Some i -> (i < List.length nodes)%nat.
Proof.
  revert i. induction nodes as [|[w|t] rest IH]; intros i H; simpl in *.
  - discriminate.
  - destruct (sel w).
    + injection H as <-. lia.
    + destruct (querySelector sel rest) as [j|]; [|discriminate].
      injection H as <-. specialize (IH j eq_refl). lia.
  - destruct (querySelector sel rest) as [j|]; [|discriminate].
    injection H as <-. specialize (IH j eq_refl). lia.
Qed.

(** The reference is to the first wrapper that the selector matches. *)
Lemma querySelector_first (sel : Wrapper -> bool) (nodes : list Node) (i : nat) :
  querySelector sel nodes = Some i ->
  exists w,
    wrapperAt i nodes = Some w /\ sel w = true
    /\ forall j w', (j < i)%nat -> wrapperAt j nodes = Some w' -> sel w' = false.
Proof.
  unfold wrapperAt. revert i.
  induction nodes as [|[w|t] rest IH]; intros i H; simpl in *.
  - discriminate.
  - destruct (sel w) eqn:Ew.
    + injection H as <-. exists w. repeat split; auto. intros; lia.
    + destruct (querySelector sel rest) as [k|]; [|discriminate].
      injection H as <-. destruct (IH k eq_refl) as [w0 [H1 [H2 H3]]].
      exists w0. repeat split; auto.
      intros [|j] w' Hj Hw; simpl in Hw.
      * now injection Hw as <-.
      * apply (H3 j); [lia|exact Hw].
  - destruct (querySelector sel rest) as [k|]; [|discriminate].
    injection H as <-. destruct (IH k eq_refl) as [w0 [H1 [H2 H3]]].
    exists w0. repeat split; auto.
    intros [|j] w' Hj Hw; simpl in Hw.
    + discriminate.
    + apply (H3 j); [lia|exact Hw].
Qed.

Lemma querySelector_none (sel : Wrapper -> bool) (nodes : list Node) :
  querySelector sel nodes = None ->
  forall w, In w (wrappers nodes) -> sel w = false.
Proof.
  induction nodes as [|[w|t] rest IH]; simpl; intros H w0 Hin.
  - contradiction.
  - destruct (sel w) eqn:Ew; [discriminate|].
    destruct (querySelector sel rest); [discriminate|].
    destruct Hin as [<-|Hin]; auto.
  - destruct (querySelector sel rest); [discriminate|]. auto.
Qed.

Lemma querySelector_app (sel : Wrapper -> bool) (l l' : list Node) :
  querySelector sel (l ++ l')
  = match querySelector sel l with
    | Some i => Some i
    | None => option_map (Nat.add (List.length l)) (querySelector sel l')
    end.
Proof.
  induction l as [|[w|t] rest IH]; simpl.
  - now destruct (querySelector sel l').
  - destruct (sel w); [reflexivity|]. rewrite IH.
    destruct (querySelector sel rest); [reflexivity|].
    now destruct (querySelector sel l').
  - rewrite IH. destruct (querySelector sel rest); [reflexivity|].
    now destruct (querySelector sel l').
Qed.

Lemma querySelector_dividers (sel : Wrapper -> bool) (nodes : list Node) :
  wrappers nodes = [] -> querySelector sel nodes = None.
Proof.
  induction nodes as [|[w|t] rest IH]; simpl; intros H.
  - reflexivity.
  - discriminate.
  - now rewrite IH.
Qed.

Lemma updateWrapper_length (i : nat) (f : Wrapper -> Wrapper) (nodes : list Node) :
  List.length (updateWrapper i f nodes) = List.length nodes.
Proof.
  revert i. induction nodes as [|[w|t] rest IH]; intros [|i]; simpl; auto.
Qed.

Lemma updateWrapper_app_left (i : nat) (f : Wrapper -> Wrapper) (l l' : list Node) :
  (i < List.length l)%nat ->
  updateWrapper i f (l ++ l') = (updateWrapper i f l ++ l')%list.
Proof.
  revert i. induction l as [|[w|t] rest IH]; intros [|i] H; simpl in *;
    try lia; try reflexivity; rewrite IH by lia; reflexivity.
Qed.

Lemma updateWrapper_app_right (f : Wrapper -> Wrapper) (l l' : list Node) (w : Wrapper) :
  updateWrapper (List.length l) f (l ++ MessageWrapper w :: l')
  = (l ++ MessageWrapper (f w) :: l')%list.
Proof.
  induction l as [|[w0|t] rest IH]; simpl; try reflexivity; now rewrite IH.
Qed.

(** ** A send that fails *)

Lemma wrappers_app (l l' : list Node) :
  wrappers (l ++ l') = (wrappers l ++ wrappers l')%list.
Proof.
  induction l as [|[w|t] rest IH]; simpl; auto. now rewrite IH.
Qed.

(** The only divider [addMessage] appends is one [DateDivider]. *)
Lemma addMessage_provisional_dividers (dateNow newDate : Z) (text : string)
  (s : State) :
  exists dividers,
    wrappers dividers = []
    /\ fst (addMessage (mkMessage (Some (tempId dateNow)) user text newDate [])
              false s) = Normal tt
    /\ messagesContainer
         (snd (addMessage (mkMessage (Some (tempId dateNow)) user text newDate [])
                 false s))
       = (messagesContainer s ++ dividers
            ++ [MessageWrapper (provisionalWrapper dateNow newDate text false)])%list.
Proof.
  unfold addMessage, startsWithTemp. cbn [id role isUser timestamp content options].
  rewrite tempId_temp. unfold_js. cbn [negb datasetString].
  unfold provisionalWrapper.
  destruct (lastMessageDate s) as [d|] eqn:El; simpl.
  - destruct (d =? toDateString newDate) eqn:Ed; simpl.
    + exists []. repeat split; reflexivity.
    + exists [DateDivider newDate]. rewrite <- app_assoc. repeat split; reflexivity.
  - exists []. repeat split; reflexivity.
Qed.

(** A whole call whose request is rejected: the call returns normally, one
    toast is shown, every child that was there is still there (at most
    flagged), and the provisional entry of the call is the last child.  The
    [failed] flag goes to the first wrapper that carries the provisional id. *)
Lemma sendMessage_rejected (text : option string) (dateNow newDate : Z)
  (e : string) (s : State) :
  isSending s = false ->
  Utils.truthy (contentToSend text s) = true ->
  exists dividers s',
    wrappers dividers = []
    /\ sendMessage text dateNow newDate (Rejected e) s = (Normal tt, s')
    /\ isSending s' = false
    /\ toasts s'
       = ((if Utils.truthy e then e else "Failed to send message"), "error")
           :: toasts s
    /\ requests s' = PostMessage (userId s) (contentToSend text s) :: requests s
    /\ messagesContainer s'
       = match querySelector (idEquals (tempId dateNow)) (messagesContainer s) with
         | Some i =>
             (updateWrapper i markFailed (messagesContainer s) ++ dividers
                ++ [MessageWrapper
                      (provisionalWrapper dateNow newDate (contentToSend text s)
                         false)])%list
         | None =>
             (messagesContainer s ++ dividers
                ++ [MessageWrapper
                      (provisionalWrapper dateNow newDate (contentToSend text s)
                         true)])%list
         end.
Proof.
  intros Hs Hc.
  destruct (sendMessage_begin_started text dateNow newDate s Hs Hc)
    as [dividers0 [s1 [E [Hm [Hg [Hr Ht]]]]]].
  assert (Hdiv : exists dividers,
             wrappers dividers = []
             /\ messagesContainer s1
                = (messagesContainer s ++ dividers
                     ++ [MessageWrapper
                           (provisionalWrapper dateNow newDate
                              (contentToSend text s) false)])%list).
  { revert E. unfold sendMessage_begin. unfold_js. rewrite Hs, Hc. simpl.
    destruct (addMessage_provisional_dividers dateNow newDate
                (contentToSend text s)
                (set_sendDisabled true (set_isSending true s)))
      as [dv [Hw [Hn Hc']]].
    destruct (addMessage _ false _) as [c sa]. simpl in Hn, Hc'. subst c.
    intros E. exists dv. split; [exact Hw|].
    destruct (textGiven text); simpl in E; injection E as <-; simpl; exact Hc'. }
  clear Hm dividers0. destruct Hdiv as [dividers [Hw Hm]].
  exists dividers.
  unfold sendMessage. rewrite (execute_bind _ _ _ _ _ E).
  unfold sendMessage_complete, tryFinally, tryCatch, sendMessage_try, throw.
  cbn [id datasetString].
  destruct (sendMessage_catch_normal
              (mkMessage (Some (tempId dateNow)) user (contentToSend text s)
                 newDate []) e s1) as [s2 [E2 [Ht2 Hm2]]].
  rewrite E2. eexists. split; [exact Hw|]. split; [reflexivity|].
  unfold sendMessage_finally, handleInputChange. simpl.
  split; [reflexivity|]. split; [now rewrite Ht2, Ht|].
  split.
  { revert E2. unfold sendMessage_catch, showToast, showTyping. unfold_js. simpl.
    destruct (querySelector _ (messagesContainer s1)); simpl;
      intros E2; injection E2 as <-; simpl; exact Hr. }
  rewrite Hm2. cbn [id datasetString]. rewrite Hm.
  rewrite querySelector_app.
  destruct (querySelector (idEquals (tempId dateNow)) (messagesContainer s))
    as [i|] eqn:Eq.
  - rewrite updateWrapper_app_left by (eapply querySelector_bound; eassumption).
    reflexivity.
  - rewrite querySelector_app, (querySelector_dividers _ dividers Hw). simpl.
    unfold idEquals at 1. simpl. rewrite String.eqb_refl. simpl.
    rewrite Nat.add_0_r, app_assoc, <- length_app.
    rewrite updateWrapper_app_right. now rewrite <- app_assoc.
Qed.

(** A send that fails while no other handler runs between its request and
    the rejection.  The call returns normally (nothing is thrown to its
    caller), one error toast with the failure message is shown, no child of
    the list is removed, and the provisional entry of the call is the last
    child.  That entry is flagged [failed], and the children before it are
    untouched, provided no wrapper already in the list carries the
    provisional id of this call. *)
Lemma sendMessage_failure_flags_provisional
  (text : option string) (dateNow newDate : Z) (e : string) (s : State) :
  isSending s = false ->
  Utils.truthy (contentToSend text s) = true ->
  exists before isFailed s',
    sendMessage text dateNow newDate (Rejected e) s = (Normal tt, s')
    /\ messagesContainer s'
       = (before
            ++ [MessageWrapper
                  (provisionalWrapper dateNow newDate (contentToSend text s)
                     isFailed)])%list
    /\ (List.length (messagesContainer s) <= List.length before)%nat
    /\ toasts s'
       = ((if Utils.truthy e then e else "Failed to send message"), "error")
           :: toasts s
    /\ (querySelector (idEquals (tempId dateNow)) (messagesContainer s) = None ->
        isFailed = true
        /\ exists dividers,
             wrappers dividers = []
             /\ before = (messagesContainer s ++ dividers)%list).
Proof.
  intros Hs Hc.
  destruct (sendMessage_rejected text dateNow newDate e s Hs Hc)
    as [dividers [s' [Hw [E [_ [Ht [_ Hm]]]]]]].
  destruct (querySelector (idEquals (tempId dateNow)) (messagesContainer s))
    as [i|] eqn:Eq.
  - exists (updateWrapper i markFailed (messagesContainer s) ++ dividers)%list,
      false, s'.
    rewrite <- app_assoc, length_app, updateWrapper_length.
    split; [exact E|]. split; [exact Hm|]. split; [lia|]. split; [exact Ht|].
    discriminate.
  - exists (messagesContainer s ++ dividers)%list, true, s'.
    rewrite <- app_assoc, length_app.
    split; [exact E|]. split; [exact Hm|]. split; [lia|]. split; [exact Ht|].
    intros _. split; [reflexivity|]. exists dividers. auto.
Qed.

Lemma sendMessage_failure_flags_provisional_witness :
  exists before s',
    sendMessage (Some "Hi") 1700000000000 1700000000000
      (Rejected "Unable to connect to server. Please check your connection.")
      freshPage = (Normal tt, s')
    /\ messagesContainer s'
       = (before
            ++ [MessageWrapper
                  (provisionalWrapper 1700000000000 1700000000000
                     (contentToSend (Some "Hi") freshPage) true)])%list
    /\ toasts s'
       = [("Unable to connect to server. Please check your connection.",
           "error")].
Proof.
  destruct (sendMessage_failure_flags_provisional (Some "Hi") 1700000000000
              1700000000000
              "Unable to connect to server. Please check your connection."
              freshPage eq_refl eq_refl)
    as [before [isFailed [s' [E [Hm [_ [Ht Hf]]]]]]].
  destruct (Hf eq_refl) as [Hflag _].
  exists before, s'. rewrite Hflag in Hm. exact (conj E (conj Hm Ht)).
Defined.

(** C7 (send failure), at the failing inputs.  At start-up the handlers
    are attached before the first load is awaited.  The user sends "Hi" while
    the first load is outstanding: the provisional entry temp-5 is shown.
    The first load then completes with one message and empties the list
    before showing it, so the provisional entry is gone.  The send is then
    rejected: the toast is shown, but there is no entry left to flag, and
    the list shows the loaded message only.  Second input: a first send at
    [Date.now() = 5] fails and is flagged; a second send is accepted while
    [Date.now()] still reads 5 and fails too.  The lookup by id finds the
    first entry again, and the entry created by the second call stays
    unflagged. *)
Theorem sendMessage_failure_entry_unflagged :
  (let s1 := snd (sendMessage_begin (Some "Hi") 5 5 freshPage) in
   let s2 := execute (loadMessages_complete (Fulfilled latestPage)) s1 in
   let s3 := execute
               (sendMessage_complete (mkMessage (Some "temp-5") user "Hi" 5 [])
                  (Rejected "offline")) s2 in
   fst (sendMessage_begin (Some "Hi") 5 5 freshPage)
   = Normal (Some (mkMessage (Some "temp-5") user "Hi" 5 []))
   /\ messagesContainer s1 = [MessageWrapper (provisionalWrapper 5 5 "Hi" false)]
   /\ messagesContainer s3
      = [MessageWrapper
           (mkWrapper "m10" assistant false false false "Welcome" 90000000 [])]
   /\ toasts s3 = [("offline", "error")]
   /\ isSending s3 = false)
  /\ (let s := execute (sendMessage (Some "Hi") 5 5 (Rejected "offline"))
                 freshPage in
      isSending s = false
      /\ Utils.truthy (contentToSend (Some "Hello") s) = true
      /\ messagesContainer
           (execute (sendMessage (Some "Hello") 5 6 (Rejected "offline")) s)
         = [MessageWrapper (provisionalWrapper 5 5 "Hi" true);
            MessageWrapper (provisionalWrapper 5 6 "Hello" false)]).
Proof. vm_compute. repeat split; reflexivity. Qed.

(** ** Provisional ids *)

(** When the first provisional wrapper shows the content of an incoming
    confirmed user message, the wrapper takes the confirmed id, loses the
    [optimistic] class, and no child is added. *)
Lemma addMessage_reconciles_first (message : Message) (prepend : bool)
  (s : State) (i : string) (k : nat) (w : Wrapper) :
  role message = user ->
  id message = Some i ->
  String.prefix "temp-" i = false ->
  querySelector idStartsWithTemp (messagesContainer s) = Some k ->
  wrapperAt k (messagesContainer s) = Some w ->
  textContent w = content message ->
  addMessage message prepend s
  = (Normal tt,
     set_messagesContainer
       (updateWrapper k (confirmWrapper i) (messagesContainer s)) s).
Proof.
  intros Hr Hi Hp Hq Hw Ht.
  unfold addMessage, startsWithTemp. rewrite Hr, Hi. unfold_js. simpl.
  rewrite Hp. simpl. rewrite Hq, Hw, Ht, String.eqb_refl. reflexivity.
Qed.

(** When the first provisional wrapper shows something else, the incoming
    message is added as a new child, whatever the later provisional wrappers
    show. *)
Lemma addMessage_skips_later (message : Message) (s : State) (i : string)
  (k : nat) (w : Wrapper) :
  role message = user ->
  id message = Some i ->
  String.prefix "temp-" i = false ->
  querySelector idStartsWithTemp (messagesContainer s) = Some k ->
  wrapperAt k (messagesContainer s) = Some w ->
  textContent w <> content message ->
  exists dividers,
    messagesContainer (execute (addMessage message false) s)
    = (messagesContainer s ++ dividers
         ++ [MessageWrapper
               (mkWrapper i user false false (Utils.isEmojiOnly (content message))
                  (renderedText (content message)) (timestamp message)
                  (options message))])%list.
Proof.
  intros Hr Hi Hp Hq Hw Ht. apply String.eqb_neq in Ht.
  unfold addMessage, startsWithTemp. rewrite Hr, Hi. unfold_js. simpl.
  rewrite Hp. simpl. rewrite Hq, Hw, Ht. simpl.
  destruct (lastMessageDate s) as [d|]; simpl.
  - destruct (d =? toDateString (timestamp message)); simpl.
    + now exists [].
    + exists [DateDivider (timestamp message)]. now rewrite <- app_assoc.
  - now exists [].
Qed.

(** A confirmed user message that is not reconciled is added to the
    list. *)
Lemma addMessage_unreconciled_grows (message : Message) (prepend : bool)
  (s : State) (i : string) :
  role message = user -> id message = Some i ->
  String.prefix "temp-" i = false ->
  (querySelector idStartsWithTemp (messagesContainer s) = None
   \/ exists k w,
        querySelector idStartsWithTemp (messagesContainer s) = Some k
        /\ wrapperAt k (messagesContainer s) = Some w
        /\ String.eqb (textContent w) (content message) = false) ->
  (List.length (messagesContainer s)
   < List.length (messagesContainer (snd (addMessage message prepend s))))%nat.
Proof.
  intros Hr Hi Hp Hq.
  unfold addMessage, startsWithTemp. rewrite Hr, Hi.
  unfold bind, ret, get, modify. simpl. rewrite Hp. simpl.
  destruct Hq as [Hq|[k [w [Hq [Hw Ht]]]]]; rewrite Hq; [|rewrite Hw, Ht];
    simpl; destruct prepend; simpl;
    try (destruct (lastMessageDate s) as [d|]; simpl;
         [destruct (d =? toDateString (timestamp message)); simpl|]);
    rewrite ?length_app; simpl; lia.
Qed.

(** C10 (provisional ids).  The provisional message of an accepted
    [sendMessage] call has the id ["temp-"] followed by the decimal reading
    of [Date.now()], role [user] and the timestamp read by [new Date()], and
    its wrapper is the last child with that id and the [optimistic] class.
    Two calls that read the same millisecond get the same id.  The entry
    that reconciliation looks at is the first wrapper whose id starts with
    ["temp-"], whatever its other attributes are: for a confirmed user
    message, [addMessage] rewrites that wrapper in place when it shows the
    content of the message, and adds the message to the list when that
    wrapper shows something else or no wrapper has such an id. *)
Theorem provisional_id_from_clock
  (text : option string) (dateNow newDate : Z) (s s1 : State) (m : Message) :
  sendMessage_begin text dateNow newDate s = (Normal (Some m), s1) ->
  (id m = Some ("temp-" ++ NilZero.string_of_int (Z.to_int dateNow))
   /\ role m = user /\ timestamp m = newDate
   /\ exists before,
        messagesContainer s1
        = (before ++ [MessageWrapper
                        (provisionalWrapper dateNow newDate (content m) false)])%list)
  /\ (forall text' newDate' s' s1' m',
        sendMessage_begin text' dateNow newDate' s' = (Normal (Some m'), s1') ->
        id m' = id m)
  /\ (forall nodes i,
        querySelector idStartsWithTemp nodes = Some i ->
        exists w,
          wrapperAt i nodes = Some w
          /\ String.prefix "temp-" (messageId w) = true
          /\ forall j w', (j < i)%nat -> wrapperAt j nodes = Some w' ->
                          String.prefix "temp-" (messageId w') = false)
  /\ (forall nodes,
        querySelector idStartsWithTemp nodes = None ->
        forall w, In w (wrappers nodes) ->
                  String.prefix "temp-" (messageId w) = false)
  /\ (forall (incoming : Message) (prepend : bool) (s0 : State) (i : string),
        role incoming = user -> id incoming = Some i ->
        String.prefix "temp-" i = false ->
        match querySelector idStartsWithTemp (messagesContainer s0) with
        | Some k =>
            exists w,
              wrapperAt k (messagesContainer s0) = Some w
              /\ if String.eqb (textContent w) (content incoming)
                 then addMessage incoming prepend s0
                      = (Normal tt,
                         set_messagesContainer
                           (updateWrapper k (confirmWrapper i)
                              (messagesContainer s0)) s0)
                 else (List.length (messagesContainer s0)
                       < List.length
                           (messagesContainer
                              (snd (addMessage incoming prepend s0))))%nat
        | None =>
            (List.length (messagesContainer s0)
             < List.length
                 (messagesContainer (snd (addMessage incoming prepend s0))))%nat
        end).
Proof.
  intros H.
  assert (Hid : forall text' newDate' s' s1' m',
             sendMessage_begin text' dateNow newDate' s' = (Normal (Some m'), s1') ->
             m' = mkMessage (Some (tempId dateNow)) user (contentToSend text' s')
                    newDate' []
             /\ exists before,
                  messagesContainer s1'
                  = (before ++ [MessageWrapper
                                  (provisionalWrapper dateNow newDate'
                                     (contentToSend text' s') false)])%list).
  { intros text' newDate' s' s1' m' H'.
    destruct (isSending s') eqn:Hs.
    - rewrite sendMessage_begin_guarded in H' by assumption. discriminate.
    - destruct (Utils.truthy (contentToSend text' s')) eqn:Hc.
      + destruct (sendMessage_begin_started text' dateNow newDate' s' Hs Hc)
          as [dv [s2 [E [Hm _]]]].
        rewrite E in H'. injection H' as <- <-. split; [reflexivity|].
        exists (messagesContainer s' ++ dv)%list. now rewrite <- app_assoc.
      + rewrite sendMessage_begin_empty in H' by assumption. discriminate. }
  destruct (Hid _ _ _ _ _ H) as [-> [before Hb]].
  split; [|split; [|split; [|split]]].
  - repeat split. exists before. exact Hb.
  - intros text' newDate' s' s1' m' H'.
    now destruct (Hid _ _ _ _ _ H') as [-> _].
  - intros nodes i Hq. exact (querySelector_first idStartsWithTemp nodes i Hq).
  - intros nodes Hq. exact (querySelector_none idStartsWithTemp nodes Hq).
  - intros incoming prepend s0 i Hr Hi Hp.
    destruct (querySelector idStartsWithTemp (messagesContainer s0)) as [k|] eqn:Hq.
    + destruct (querySelector_first _ _ _ Hq) as [w [Hw _]].
      exists w. split; [exact Hw|].
      destruct (String.eqb (textContent w) (content incoming)) eqn:Ht.
      * apply String.eqb_eq in Ht.
        exact (addMessage_reconciles_first incoming prepend s0 i k w Hr Hi Hp Hq
                 Hw Ht).
      * apply (addMessage_unreconciled_grows incoming prepend s0 i Hr Hi Hp).
        right. exists k, w. auto.
    + apply (addMessage_unreconciled_grows incoming prepend s0 i Hr Hi Hp).
      now left.
Qed.

Lemma provisional_id_from_clock_witness :
  id (mkMessage (Some "temp-1700000000000") user "Hi" 1700000000001 [])
  = Some ("temp-" ++ NilZero.string_of_int (Z.to_int 1700000000000)).
Proof.
  exact (proj1 (proj1 (provisional_id_from_clock (Some "Hi") 1700000000000
                         1700000000001 freshPage
                         (snd (sendMessage_begin (Some "Hi") 1700000000000
                                 1700000000001 freshPage))
                         (mkMessage (Some "temp-1700000000000") user "Hi"
                            1700000000001 [])
                         eq_refl))).
Defined.

(** ** Reconciliation *)

(** C1 (reconciliation), at the failing input.  The user sends "Hello" and
    then "Hi"; neither reply confirms a user message, so both entries stay
    provisional.  A confirmed user message with content "Hi" now arrives.
    The list holds a provisional entry showing "Hi", but the lookup returns
    the first provisional wrapper, which shows "Hello": the provisional
    entry keeps its id and class and "Hi" is added a second time. *)
Theorem addMessage_duplicates_later_provisional :
  let s :=
    execute (sendMessage (Some "Hi") 2 2 (Fulfilled (mkSendResponse None)))
      (execute (sendMessage (Some "Hello") 1 1 (Fulfilled (mkSendResponse None)))
         freshPage) in
  let incoming := mkMessage (Some "m2") user "Hi" 3 [] in
  messagesContainer s
  = [MessageWrapper (provisionalWrapper 1 1 "Hello" false);
     MessageWrapper (provisionalWrapper 2 2 "Hi" false)]
  /\ addMessage incoming false s
     = (Normal tt,
        set_messagesContainer
          [MessageWrapper (provisionalWrapper 1 1 "Hello" false);
           MessageWrapper (provisionalWrapper 2 2 "Hi" false);
           MessageWrapper (mkWrapper "m2" user false false false "Hi" 3 [])] s)
  /\ map messageId
       (entriesShowing "Hi"
          (messagesContainer (execute (addMessage incoming false) s)))
     = ["temp-2"; "m2"].
Proof. vm_compute. repeat split; reflexivity. Qed.

(** ** Loading older pages *)

Section PaginationProperties.

Variable scrollHeight : list Node -> Z.

(** What a call of [loadOlderMessages] does before it awaits. *)
Lemma loadOlderMessages_begin_cases (s : State) :
  (loadOlderMessages_begin scrollHeight s = (Normal None, s)
   /\ (isLoadingMore s = true \/ hasMoreMessages s = false
       \/ truthyId (oldestMessageId s) = false))
  \/ (loadOlderMessages_begin scrollHeight s
      = (Normal None, set_isLoadingMore false (set_isLoadingMore true s))
      /\ isLoadingMore s = false)
  \/ (exists uid,
        loadOlderMessages_begin scrollHeight s
        = (Normal (Some (mkRemembered (scrollHeight (messagesContainer s))
                           (scrollTop s))),
           set_requests (GetMessages uid (oldestMessageId s) 20 :: requests s)
             (set_isLoadingMore true s))
        /\ isLoadingMore s = false).
Proof.
  unfold loadOlderMessages_begin. unfold_js.
  destruct (isLoadingMore s) eqn:E1; simpl; [left; auto|].
  destruct (hasMoreMessages s) eqn:E2; simpl; [|left; auto].
  destruct (truthyId (oldestMessageId s)) eqn:E3; simpl; [|left; auto].
  destruct (storedUserId s) as [uid|]; simpl.
  - destruct (Utils.truthy uid); simpl.
    + right. right. exists uid. auto.
    + right. left. auto.
  - right. left. auto.
Qed.

(** The guard of [loadOlderMessages]. *)
Lemma loadOlderMessages_begin_guarded (s : State) :
  isLoadingMore s = true \/ hasMoreMessages s = false \/ oldestMessageId s = None ->
  loadOlderMessages_begin scrollHeight s = (Normal None, s).
Proof.
  intros H. unfold loadOlderMessages_begin. unfold_js.
  destruct H as [H|[H|H]]; rewrite H; simpl;
    rewrite ?orb_true_r; reflexivity.
Qed.

(** C6 (pagination single flight).  [loadOlderMessages] returns without a
    request and without touching the state when [isLoadingMore] is true,
    [hasMoreMessages] is false or [oldestMessageId] is unset; a call that
    returns before awaiting issues no request; and when a first call is
    awaiting its page, the first call has issued exactly one request and a
    second call issues none, so the pair issues exactly one. *)
Theorem loadOlderMessages_single_flight (s : State) :
  (isLoadingMore s = true \/ hasMoreMessages s = false \/ oldestMessageId s = None ->
   loadOlderMessages_begin scrollHeight s = (Normal None, s))
  /\ (forall s1,
        loadOlderMessages_begin scrollHeight s = (Normal None, s1) ->
        requests s1 = requests s)
  /\ (forall remembered s1,
        loadOlderMessages_begin scrollHeight s = (Normal (Some remembered), s1) ->
        (exists uid,
           requests s1 = GetMessages uid (oldestMessageId s) 20 :: requests s)
        /\ isLoadingMore s1 = true
        /\ loadOlderMessages_begin scrollHeight s1 = (Normal None, s1)
        /\ List.length (requests (snd (loadOlderMessages_begin scrollHeight s1)))
           = S (List.length (requests s))).
Proof.
  split; [apply loadOlderMessages_begin_guarded|]. split.
  - intros s1 H.
    destruct (loadOlderMessages_begin_cases s) as [[E _]|[[E _]|[uid [E _]]]];
      rewrite E in H; try discriminate; injection H as <-; reflexivity.
  - intros remembered s1 H.
    destruct (loadOlderMessages_begin_cases s) as [[E _]|[[E _]|[uid [E _]]]];
      rewrite E in H; try discriminate. injection H as _ <-.
    assert (G : loadOlderMessages_begin scrollHeight
                  (set_requests (GetMessages uid (oldestMessageId s) 20 :: requests s)
                     (set_isLoadingMore true s))
                = (Normal None,
                   set_requests (GetMessages uid (oldestMessageId s) 20 :: requests s)
                     (set_isLoadingMore true s)))
      by (apply loadOlderMessages_begin_guarded; left; reflexivity).
    split; [exists uid; reflexivity|]. split; [reflexivity|].
    split; [exact G|]. rewrite G. reflexivity.
Qed.

(** The outcome of [loadOlderMessages] once its request has settled. *)
Lemma loadOlderMessages_complete_cases (remembered : Remembered)
  (settled : Settled PageResponse) (s : State) :
  loadOlderMessages_complete scrollHeight remembered settled s
  = (Normal tt,
     set_isLoadingMore false
       match settled with
       | Rejected _ =>
           set_toasts (("Failed to load older messages", "error") :: toasts s) s
       | Fulfilled response =>
           match messages response with
           | [] => set_hasMoreMessages false s
           | first :: _ =>
               let s2 :=
                 set_messagesContainer
                   (buildFragment None (sortByTimestamp (messages response))
                      ++ messagesContainer s)
                   (set_hasMoreMessages (has_more response)
                      (set_oldestMessageId (nextOldestId response first) s)) in
               set_scrollTop
                 (rememberedScrollTop remembered
                  + (scrollHeight (messagesContainer s2)
                     - rememberedScrollHeight remembered)) s2
           end
       end).
Proof.
  unfold loadOlderMessages_complete, prependMessages, showToast. unfold_js.
  destruct settled as [response|e]; simpl; [|reflexivity].
  destruct (messages response); reflexivity.
Qed.

(** C8 (fetch postconditions).  Once the request of a [loadOlderMessages]
    call has settled the call returns normally with [isLoadingMore] false,
    whatever the outcome.  An empty page sets [hasMoreMessages] to false and
    shows no error toast.  A page with messages sets [oldestMessageId] to
    [next_cursor] when the reply carries one (a non-empty string), and to the
    id of the first message of the page as returned when it carries none. *)
Theorem loadOlderMessages_postconditions (remembered : Remembered)
  (settled : Settled PageResponse) (s : State) :
  fst (loadOlderMessages_complete scrollHeight remembered settled s) = Normal tt
  /\ isLoadingMore
       (snd (loadOlderMessages_complete scrollHeight remembered settled s)) = false
  /\ (forall response,
        settled = Fulfilled response -> messages response = [] ->
        hasMoreMessages
          (snd (loadOlderMessages_complete scrollHeight remembered settled s)) = false
        /\ toasts (snd (loadOlderMessages_complete scrollHeight remembered settled s))
           = toasts s)
  /\ (forall response first rest,
        settled = Fulfilled response -> messages response = first :: rest ->
        (forall cursor,
           next_cursor response = Some cursor -> cursor <> "" ->
           oldestMessageId
             (snd (loadOlderMessages_complete scrollHeight remembered settled s))
           = Some cursor)
        /\ (next_cursor response = None \/ next_cursor response = Some "" ->
            oldestMessageId
              (snd (loadOlderMessages_complete scrollHeight remembered settled s))
            = id first)).
Proof.
  rewrite loadOlderMessages_complete_cases. simpl.
  split; [reflexivity|]. split; [reflexivity|]. split.
  - intros response -> Hm. rewrite Hm. split; reflexivity.
  - intros response first rest -> Hm. rewrite Hm. simpl. unfold nextOldestId.
    split.
    + intros cursor Hc Hne. rewrite Hc. simpl.
      destruct cursor; [congruence|reflexivity].
    + intros [Hc|Hc]; rewrite Hc; reflexivity.
Qed.

(** What the call does about the scroll offset.  [loadOlderMessages]
    remembers the extent and the offset of the container when it starts,
    before it issues the request.  When a page with messages comes back, in
    whatever state the chat then is, the page is put in front of the children
    and the offset is set to the remembered offset plus the extent after the
    prepend minus the remembered extent.  When no other handler ran in
    between, that is the offset just before the prepend plus the growth in
    extent. *)
Lemma loadOlderMessages_anchor (s0 s1 s : State) (remembered : Remembered)
  (response : PageResponse) (first : Message) (rest : list Message) :
  loadOlderMessages_begin scrollHeight s0 = (Normal (Some remembered), s1) ->
  messages response = first :: rest ->
  let s' := execute (loadOlderMessages_complete scrollHeight remembered
                       (Fulfilled response)) s in
  rememberedScrollHeight remembered = scrollHeight (messagesContainer s0)
  /\ rememberedScrollTop remembered = scrollTop s0
  /\ messagesContainer s'
     = (buildFragment None (sortByTimestamp (messages response))
          ++ messagesContainer s)%list
  /\ scrollTop s'
     = scrollTop s0
       + (scrollHeight (messagesContainer s') - scrollHeight (messagesContainer s0))
  /\ (scrollTop s = scrollTop s0 ->
      messagesContainer s = messagesContainer s0 ->
      scrollTop s'
      = scrollTop s
        + (scrollHeight (messagesContainer s') - scrollHeight (messagesContainer s))).
Proof.
  intros Hb Hm s'. subst s'. unfold execute.
  rewrite loadOlderMessages_complete_cases. rewrite Hm. simpl.
  destruct (loadOlderMessages_begin_cases s0) as [[E _]|[[E _]|[uid [E _]]]];
    rewrite E in Hb; try discriminate. injection Hb as <- <-. simpl.
  repeat split. intros -> ->. reflexivity.
Qed.

End PaginationProperties.

Lemma loadOlderMessages_single_flight_witness :
  loadOlderMessages_begin rowLayout
    (snd (loadOlderMessages_begin rowLayout historyLoaded))
  = (Normal None, snd (loadOlderMessages_begin rowLayout historyLoaded))
  /\ List.length
       (requests
          (snd (loadOlderMessages_begin rowLayout
                  (snd (loadOlderMessages_begin rowLayout historyLoaded)))))
     = S (List.length (requests historyLoaded)).
Proof.
  exact (proj2 (proj2 (proj2 (proj2 (loadOlderMessages_single_flight rowLayout
                                       historyLoaded))
                               (mkRemembered 40 50)
                               (snd (loadOlderMessages_begin rowLayout historyLoaded))
                               eq_refl))).
Defined.

Lemma loadOlderMessages_postconditions_witness :
  hasMoreMessages
    (snd (loadOlderMessages_complete rowLayout (mkRemembered 40 50)
            (Fulfilled (mkPageResponse [] true None))
            (snd (loadOlderMessages_begin rowLayout historyLoaded)))) = false
  /\ toasts
       (snd (loadOlderMessages_complete rowLayout (mkRemembered 40 50)
               (Fulfilled (mkPageResponse [] true None))
               (snd (loadOlderMessages_begin rowLayout historyLoaded))))
     = toasts (snd (loadOlderMessages_begin rowLayout historyLoaded)).
Proof.
  exact (proj1 (proj2 (proj2 (loadOlderMessages_postconditions rowLayout
                                (mkRemembered 40 50)
                                (Fulfilled (mkPageResponse [] true None))
                                (snd (loadOlderMessages_begin rowLayout
                                        historyLoaded)))))
           (mkPageResponse [] true None) eq_refl eq_refl).
Defined.

(** C4 (anchor), at the failing input.  The chat shows twenty messages
    (extent 800 in a container 600 high) and is scrolled to offset 50, near
    the top, so [loadOlderMessages] starts and remembers extent 800 and
    offset 50.  While the page is being fetched the user scrolls on to the
    top, offset 0.  The page then comes back with one message of the day
    before: a divider and a wrapper, extent 880.  Immediately before the
    prepend the offset is 0 and the extent 800, so keeping the visible
    messages in place asks for offset 0 + (880 - 800) = 80; the code assigns
    50 + (880 - 800) = 130, and the messages the user was looking at move up
    by 50.  Every offset involved lies within what the container can
    scroll. *)
Theorem loadOlderMessages_anchor_lost_on_scroll :
  let s1 := snd (loadOlderMessages_begin rowLayout longHistory) in
  let s2 := execute (userScroll 0) s1 in
  let s3 := execute (loadOlderMessages_complete rowLayout (mkRemembered 800 50)
                       (Fulfilled olderPage)) s2 in
  (rowLayout (messagesContainer longHistory) = 800
   /\ scrollTop longHistory = 50
   /\ 0 <= scrollTop longHistory
        <= rowLayout (messagesContainer longHistory) - viewport)
  /\ fst (loadOlderMessages_begin rowLayout longHistory)
     = Normal (Some (mkRemembered 800 50))
  /\ (scrollTop s2 = 0 /\ rowLayout (messagesContainer s2) = 800)
  /\ (rowLayout (messagesContainer s3) = 880 /\ scrollTop s3 = 130
      /\ 0 <= scrollTop s3 <= rowLayout (messagesContainer s3) - viewport)
  /\ scrollTop s3
     <> scrollTop s2
        + (rowLayout (messagesContainer s3) - rowLayout (messagesContainer s2)).
Proof.
  vm_compute. repeat split; try reflexivity; discriminate.
Qed.

(** ** Date dividers *)

Lemma lastDateFrom_app (prev : option Z) (l l' : list Node) :
  lastDateFrom prev (l ++ l') = lastDateFrom (lastDateFrom prev l) l'.
Proof.
  revert prev. induction l as [|[w|t] rest IH]; intros prev; simpl; auto.
Qed.

(** A list that reads well can be read on from the day of its last
    message. *)
Lemma dividersExactFrom_app (prev : option Z) (divided : bool) (l l' : list Node) :
  dividersExactFrom prev divided l = true ->
  dividersExactFrom prev divided (l ++ l')
  = dividersExactFrom (lastDateFrom prev l) false l'.
Proof.
  revert prev divided. induction l as [|[w|t] rest IH]; intros prev divided H;
    simpl in *.
  - destruct divided; [discriminate|reflexivity].
  - apply andb_true_iff in H as [H1 H2]. rewrite H1. simpl. now apply IH.
  - apply andb_true_iff in H as [H1 H2]. rewrite H1. simpl. now apply IH.
Qed.

Lemma confirmWrapper_stamp (i : string) (w : Wrapper) :
  stamp (confirmWrapper i w) = stamp w.
Proof. reflexivity. Qed.

(** Rewriting a wrapper without touching its timestamp moves no date
    boundary. *)
Lemma updateWrapper_dates (f : Wrapper -> Wrapper) (k : nat) (nodes : list Node) :
  (forall w, stamp (f w) = stamp w) ->
  (forall prev divided,
     dividersExactFrom prev divided (updateWrapper k f nodes)
     = dividersExactFrom prev divided nodes)
  /\ (forall prev,
        lastDateFrom prev (updateWrapper k f nodes) = lastDateFrom prev nodes).
Proof.
  intros Hf. revert k.
  induction nodes as [|[w|t] rest IH]; intros k; simpl.
  - destruct k; split; reflexivity.
  - destruct k as [|k]; simpl.
    + rewrite Hf. split; reflexivity.
    + destruct (IH k) as [A B]. split; intros; [now rewrite A|apply B].
  - destruct k as [|k]; simpl.
    + split; reflexivity.
    + destruct (IH k) as [A B]. split; intros; [now rewrite A|apply B].
Qed.

Lemma cleared_appendInvariant (s : State) : cleared s -> appendInvariant s.
Proof. intros [H1 H2]. unfold appendInvariant. rewrite H1, H2. split; reflexivity. Qed.

Lemma addMessage_append_invariant (message : Message) (s : State) :
  appendInvariant s -> appendInvariant (execute (addMessage message false) s).
Proof.
  unfold appendInvariant, dividersExact. intros [HE HL].
  unfold addMessage, startsWithTemp. unfold_js.
  repeat case_step; simpl; auto.
  all: try match goal with
       | |- context [updateWrapper ?k (confirmWrapper ?i) ?l] =>
           destruct (updateWrapper_dates (confirmWrapper i) k l
                       (confirmWrapper_stamp i)) as [A B];
           rewrite A, B; auto
       end.
  all: rewrite <- ?app_assoc; simpl app.
  all: rewrite (dividersExactFrom_app _ _ _ _ HE), lastDateFrom_app, <- HL.
  all: repeat match goal with
         | H : lastMessageDate _ = _ |- _ => rewrite H
         end; simpl.
  all: repeat match goal with
         | H : negb (_ =? _) = true |- _ => rewrite H; clear H
         | H : negb (_ =? _) = false |- _ =>
             rewrite H; apply negb_false_iff, Z.eqb_eq in H
         end; simpl; split; congruence.
Qed.

Lemma appends_invariant (ms : list Message) (s : State) :
  appendInvariant s -> appendInvariant (insertAll (map Append ms) s).
Proof.
  revert s. induction ms as [|m ms IH]; intros s H; simpl.
  - exact H.
  - apply IH. now apply addMessage_append_invariant.
Qed.

(** Inside a page the dividers follow the days: read from a message of day
    [d], the rest of the fragment has its dividers exactly at the day
    changes. *)
Lemma buildFragment_exact (d : Z) (sorted : list Message) :
  dividersExactFrom (Some d) false (buildFragment (Some d) sorted) = true.
Proof.
  revert d. induction sorted as [|m rest IH]; intros d; simpl.
  - reflexivity.
  - destruct (d =? toDateString (timestamp m)) eqn:E; simpl; rewrite E; simpl.
    + apply Z.eqb_eq in E. rewrite <- E. apply IH.
    + apply IH.
Qed.

Lemma bind_modify {B} (f : State -> State) (k : unit -> M B) (s : State) :
  bind (modify f) k s = k tt (f s).
Proof. reflexivity. Qed.

(** A property of the final state that each half of a sequence keeps is
    kept by the sequence, whether or not the first half throws. *)
Lemma bind_keeps {A B} (P : State -> Prop) (m : M A) (k : A -> M B) (s : State) :
  P (snd (m s)) ->
  (forall a s', P s' -> P (snd (k a s'))) ->
  P (snd (bind m k s)).
Proof.
  intros Hm Hk. unfold bind. destruct (m s) as [[a|e] s']; simpl in *; auto.
Qed.

Lemma tryCatch_keeps {A} (P : State -> Prop) (body : M A) (handler : string -> M A)
  (s : State) :
  P (snd (body s)) ->
  (forall e s', P s' -> P (snd (handler e s'))) ->
  P (snd (tryCatch body handler s)).
Proof.
  intros Hb Hh. unfold tryCatch. destruct (body s) as [[a|e] s']; simpl in *; auto.
Qed.

(** The [forEach] of [loadMessages]: it stops at the first message that
    makes [addMessage] throw. *)
Lemma forEach_addMessage_invariant (ms : list Message) (acc : M unit) (s : State) :
  appendInvariant (snd (acc s)) ->
  appendInvariant
    (snd (fold_left (fun acc message => acc ;; addMessage message false) ms acc s)).
Proof.
  revert acc. induction ms as [|m ms IH]; intros acc Ha; simpl; [exact Ha|].
  apply IH. apply bind_keeps; [exact Ha|].
  intros _ s' Hs'. now apply addMessage_append_invariant.
Qed.

(** The first load: a page of the latest messages is shown with its
    dividers exactly at the day changes. *)
Lemma loadMessages_dividers_exact (settled : Settled PageResponse) (s : State) :
  appendInvariant s ->
  appendInvariant (execute (loadMessages_complete settled) s).
Proof.
  intros H. unfold loadMessages_complete, execute.
  apply tryCatch_keeps; [|intros e s' Hs'; exact Hs'].
  destruct settled as [response|e]; [|exact H].
  destruct (messages response) as [|first rest] eqn:Em; [exact H|].
  rewrite !bind_modify. apply bind_keeps.
  - apply forEach_addMessage_invariant. split; reflexivity.
  - intros _ s' Hs'. exact Hs'.
Qed.

(** What the append path keeps.  After any sequence of appends
    ([addMessage] without [prepend]) to a cleared chat, a date divider sits
    between two adjacent messages exactly when their timestamps fall on
    different calendar days, and no divider appears anywhere else.  Inside a
    page built by [prependMessages] the same holds from the first message of
    the page on. *)
Lemma dividers_exact_on_append (s : State) (ms page : list Message) :
  (cleared s ->
   dividersExact (messagesContainer (insertAll (map Append ms) s)) = true)
  /\ dividersExact (tl (buildFragment None (sortByTimestamp page))) = true.
Proof.
  split.
  - intros H. apply (appends_invariant ms s (cleared_appendInvariant s H)).
  - destruct (sortByTimestamp page) as [|m rest]; simpl; [reflexivity|].
    unfold dividersExact. simpl. apply buildFragment_exact.
Qed.

Lemma dividers_exact_on_append_witness :
  dividersExact
    (messagesContainer
       (insertAll
          (map Append
             [mkMessage (Some "m1") user "Hi" 1000 [];
              mkMessage (Some "m2") assistant "Hello" 2000 [];
              mkMessage (Some "m3") user "Back" 90000000 []])
          freshPage)) = true.
Proof.
  exact (proj1 (dividers_exact_on_append freshPage
                  [mkMessage (Some "m1") user "Hi" 1000 [];
                   mkMessage (Some "m2") assistant "Hello" 2000 [];
                   mkMessage (Some "m3") user "Back" 90000000 []] [])
           (conj eq_refl eq_refl)).
Defined.

(** C2 (date dividers), at the failing inputs.  [prependMessages] tracks
    the days of the messages of a page to place dividers, as the append path
    does, but starts every page with no day and never looks at the list
    already shown.  After the first load shows one message of day 1, the
    older page with one message of day 0 is put in front with a divider above
    it, where no two messages meet, and with none between it and the message
    of day 1.  A second page of the same day as the first puts a divider
    between two messages of one day.  A single message prepended by
    [addMessage] gets no divider at all.  (The timestamps are one second or
    twenty-five hours apart, so the days agree or differ in every time
    zone.) *)
Theorem dividers_not_exact_on_prepend :
  cleared freshPage
  /\ messagesContainer
       (insertAll [Append (mkMessage (Some "m10") assistant "Welcome" 90000000 []);
                   PrependPage [mkMessage (Some "m9") user "Hi" 1000 []]]
          freshPage)
     = [DateDivider 1000;
        MessageWrapper (mkWrapper "m9" user false false false "Hi" 1000 []);
        MessageWrapper
          (mkWrapper "m10" assistant false false false "Welcome" 90000000 [])]
  /\ dividersExact
       (messagesContainer
          (insertAll [Append (mkMessage (Some "m10") assistant "Welcome" 90000000 []);
                      PrependPage [mkMessage (Some "m9") user "Hi" 1000 []]]
             freshPage)) = false
  /\ messagesContainer
       (insertAll [Append (mkMessage (Some "m10") assistant "Welcome" 90000000 []);
                   PrependPage [mkMessage (Some "m9") user "Hi" 2000 []];
                   PrependPage [mkMessage (Some "m8") user "Yo" 1000 []]]
          freshPage)
     = [DateDivider 1000;
        MessageWrapper (mkWrapper "m8" user false false false "Yo" 1000 []);
        DateDivider 2000;
        MessageWrapper (mkWrapper "m9" user false false false "Hi" 2000 []);
        MessageWrapper
          (mkWrapper "m10" assistant false false false "Welcome" 90000000 [])]
  /\ messagesContainer
       (insertAll [Append (mkMessage (Some "m10") assistant "Welcome" 90000000 []);
                   Prepend (mkMessage (Some "m9") assistant "Hi" 1000 [])]
          freshPage)
     = [MessageWrapper (mkWrapper "m9" assistant false false false "Hi" 1000 []);
        MessageWrapper
          (mkWrapper "m10" assistant false false false "Welcome" 90000000 [])].
Proof. vm_compute. repeat split; reflexivity. Qed.

(** ** The reconnect budget *)

Lemma removeNth_length {A} (k : nat) (l : list A) (x : A) :
  nth_error l k = Some x -> S (List.length (WS.removeNth k l)) = List.length l.
Proof.
  revert k. induction l as [|y l IH]; intros [|k] H; simpl in *;
    try discriminate; auto.
Qed.

(** [onclose] spends one attempt of the budget and schedules one reconnect,
    or, with the budget spent, does neither. *)
Lemma onclose_budget (i : nat) (t : WS.Transport) :
  ((WS.reconnectAttempts t < WS.maxReconnectAttempts)%nat ->
   WS.reconnectAttempts (WS.onclose i t) = S (WS.reconnectAttempts t)
   /\ WS.reconnectTimers (WS.onclose i t)
      = (WS.reconnectTimers t ++ [WS.reconnectInterval])%list)
  /\ ((WS.maxReconnectAttempts <= WS.reconnectAttempts t)%nat ->
      WS.reconnectAttempts (WS.onclose i t) = WS.reconnectAttempts t
      /\ WS.reconnectTimers (WS.onclose i t) = WS.reconnectTimers t).
Proof.
  unfold WS.onclose.
  destruct (WS.reconnectAttempts t <? WS.maxReconnectAttempts)%nat eqn:E.
  - apply Nat.ltb_lt in E. split; [intros _; split; reflexivity|lia].
  - apply Nat.ltb_ge in E. split; [lia|intros _; split; reflexivity].
Qed.

(** The counter never passes the maximum. *)
Lemma step_attempts_bounded (t t' : WS.Transport) (e : WS.Event) :
  WS.step t e t' ->
  (WS.reconnectAttempts t <= WS.maxReconnectAttempts)%nat ->
  (WS.reconnectAttempts t' <= WS.maxReconnectAttempts)%nat.
Proof.
  intros H Hb. inversion H; subst; simpl; auto; try lia.
  destruct (onclose_budget i t) as [A B].
  destruct (Nat.lt_ge_cases (WS.reconnectAttempts t) WS.maxReconnectAttempts) as [L|L].
  - destruct (A L) as [-> _]. lia.
  - destruct (B L) as [-> _]. lia.
Qed.

(** While nothing opens, every attempt counted has either fired as a
    reconnect or is still pending as a timer. *)
Lemma run_failing_balance (t t' : WS.Transport) (es : list WS.Event) :
  WS.run t es t' ->
  failing es = true ->
  (WS.reconnectAttempts t' + List.length (WS.reconnectTimers t)
   = WS.reconnectAttempts t + List.length (WS.reconnectTimers t')
     + WS.reconnects es
   /\ (WS.reconnectAttempts t <= WS.maxReconnectAttempts ->
       WS.reconnectAttempts t' <= WS.maxReconnectAttempts))%nat.
Proof.
  induction 1 as [t|t e t1 es t2 Hstep Hrun IH]; intros Hf.
  - unfold WS.reconnects. simpl. split; lia.
  - simpl in Hf. apply andb_true_iff in Hf as [He Hes].
    destruct (IH Hes) as [IH1 IH2].
    pose proof (step_attempts_bounded _ _ _ Hstep) as Hb.
    split; [|auto].
    unfold WS.reconnects in *. inversion Hstep; subst; simpl in *.
    + lia.
    + discriminate.
    + destruct (onclose_budget i t) as [A B].
      destruct (Nat.lt_ge_cases (WS.reconnectAttempts t) WS.maxReconnectAttempts)
        as [L|L].
      * destruct (A L) as [A1 A2]. rewrite A1, A2, length_app in IH1.
        simpl in IH1. lia.
      * destruct (B L) as [B1 B2]. rewrite B1, B2 in IH1. lia.
    + unfold WS.onerror in *. lia.
    + pose proof (removeNth_length _ _ _ H) as Hl. lia.
    + lia.
Qed.

(** With no timer pending and every socket closed, only the application
    can make something happen. *)
Lemma quiescent_step (t t' : WS.Transport) (e : WS.Event) :
  WS.reconnectTimers t = [] -> WS.allClosed t ->
  WS.step t e t' -> e = WS.ExternalConnect.
Proof.
  intros Ht Hc H. inversion H; subst; auto.
  - specialize (Hc _ _ H0). discriminate.
  - specialize (Hc _ _ H0). contradiction.
  - specialize (Hc _ _ H0). contradiction.
  - rewrite Ht in H0. destruct k; discriminate.
  - specialize (Hc _ _ H0). contradiction.
Qed.

Lemma quiescent_run (t t' : WS.Transport) (es : list WS.Event) :
  WS.reconnectTimers t = [] -> WS.allClosed t ->
  WS.run t es t' -> automatic es = true -> es = [] /\ t' = t.
Proof.
  intros Ht Hc H Ha. destruct H as [t|t e t1 es t2 Hstep Hrun].
  - split; reflexivity.
  - rewrite (quiescent_step _ _ _ Ht Hc Hstep) in Ha. discriminate.
Qed.

(** C5 (reconnect budget).  A close event increments [reconnectAttempts]
    and schedules a reconnect after [reconnectInterval] when the counter is
    below [maxReconnectAttempts], and does neither otherwise.  An open event
    resets the counter to zero.  Starting with a fresh budget and no timer
    pending, in a run where no socket opens and the application does not call
    [connect], at most [maxReconnectAttempts] reconnects happen; once that
    many have happened and the last socket is closed, the counter is at the
    maximum, no timer is pending, and nothing more happens until the
    application calls [connect]. *)
Theorem reconnect_budget (t t' : WS.Transport) (i : nat) (es : list WS.Event) :
  (((WS.reconnectAttempts t < WS.maxReconnectAttempts)%nat ->
    WS.reconnectAttempts (WS.onclose i t) = S (WS.reconnectAttempts t)
    /\ WS.reconnectTimers (WS.onclose i t)
       = (WS.reconnectTimers t ++ [WS.reconnectInterval])%list)
   /\ ((WS.maxReconnectAttempts <= WS.reconnectAttempts t)%nat ->
       WS.reconnectAttempts (WS.onclose i t) = WS.reconnectAttempts t
       /\ WS.reconnectTimers (WS.onclose i t) = WS.reconnectTimers t))
  /\ WS.reconnectAttempts (WS.onopen i t) = 0%nat
  /\ (WS.reconnectAttempts t = 0%nat -> WS.reconnectTimers t = [] ->
      WS.run t es t' -> failing es = true ->
      (WS.reconnects es <= WS.maxReconnectAttempts)%nat
      /\ (WS.reconnects es = WS.maxReconnectAttempts -> WS.allClosed t' ->
          WS.reconnectAttempts t' = WS.maxReconnectAttempts
          /\ WS.reconnectTimers t' = []
          /\ forall es' t'',
               WS.run t' es' t'' -> automatic es' = true ->
               es' = [] /\ t'' = t')).
Proof.
  split; [apply onclose_budget|]. split; [reflexivity|].
  intros H0 Ht Hrun Hf.
  destruct (run_failing_balance _ _ _ Hrun Hf) as [Hbal Hmax].
  rewrite H0, Ht in Hbal. simpl in Hbal.
  assert (Hle : (WS.reconnectAttempts t' <= WS.maxReconnectAttempts)%nat)
    by (apply Hmax; rewrite H0; lia).
  split; [lia|]. intros Hr Hc.
  assert (Hnil : WS.reconnectTimers t' = []).
  { destruct (WS.reconnectTimers t'); [reflexivity|simpl in Hbal; lia]. }
  rewrite Hnil in Hbal. simpl in Hbal.
  split; [lia|]. split; [exact Hnil|].
  intros es' t'' Hrun' Ha. exact (quiescent_run _ _ _ Hnil Hc Hrun' Ha).
Qed.

Lemma serverDown_run : WS.run (WS.init WS.declared) serverDown givenUp.
Proof.
  unfold serverDown.
  repeat (eapply WS.run_cons;
          [first [ eapply WS.step_close; [reflexivity|discriminate]
                 | eapply WS.step_timer; reflexivity ]|]).
  apply WS.run_nil.
Defined.

Lemma givenUp_allClosed : WS.allClosed givenUp.
Proof.
  intros i r H.
  do 6 (destruct i as [|i]; [injection H as <-; reflexivity|]).
  destruct i; discriminate.
Defined.

Lemma reconnect_budget_witness :
  WS.reconnectAttempts givenUp = WS.maxReconnectAttempts
  /\ WS.reconnectTimers givenUp = [].
Proof.
  destruct (proj2 (proj2 (proj2 (reconnect_budget (WS.init WS.declared) givenUp 0
                                   serverDown))
                     eq_refl eq_refl serverDown_run eq_refl) eq_refl
              givenUp_allClosed) as [A [B _]].
  exact (conj A B).
Defined.

(** ** Reconciliation and formatted text *)

(** The comparison is against the text the wrapper shows, not against the
    content it was built from: a provisional entry whose content carries
    emphasis marks shows the text without them, and the confirmed copy of the
    same content is added next to it. *)
Lemma addMessage_duplicates_formatted :
  let s :=
    execute (sendMessage (Some "*ok* then") 1 1 (Fulfilled (mkSendResponse None)))
      freshPage in
  map textContent (wrappers (messagesContainer s)) = ["ok then"]
  /\ map messageId
       (wrappers
          (messagesContainer
             (execute
                (addMessage (mkMessage (Some "m1") user "*ok* then" 2 []) false) s)))
     = ["temp-1"; "m1"].
Proof. vm_compute. split; reflexivity. Qed.

(** * Further properties *)

(** ** Escaping and rendering *)

Lemma forallb_string_app (p : ascii -> bool) (s s' : string) :
  Utils.forallb_string p (s ++ s')
  = Utils.forallb_string p s && Utils.forallb_string p s'.
Proof.
  induction s as [|c s IH]; simpl; [reflexivity|].
  now rewrite IH, andb_assoc.
Qed.

(** X1.  The escaped text holds no angle bracket, so nothing in it can
    open or close a tag. *)
Theorem escapeHtml_no_brackets (text : string) :
  noChar "<" (Utils.escapeHtml text) = true
  /\ noChar ">" (Utils.escapeHtml text) = true.
Proof.
  unfold noChar. induction text as [|c text [IH1 IH2]]; simpl; [split; reflexivity|].
  destruct c as [[] [] [] [] [] [] [] []]; simpl; auto.
Qed.

(** Reading the escaped text back gives the text, when the text holds no
    U+0000 and no carriage return. *)
Lemma htmlTextContent_escapeHtml (text : string) :
  noChar "000" text = true -> noChar "013" text = true ->
  htmlTextContent false (Utils.escapeHtml text) = text.
Proof.
  unfold noChar. induction text as [|c text IH]; simpl; [reflexivity|].
  intros H0 H13.
  apply andb_true_iff in H0 as [Hc0 Ht0].
  apply andb_true_iff in H13 as [Hc13 Ht13].
  specialize (IH Ht0 Ht13).
  destruct c as [[] [] [] [] [] [] [] []]; simpl in *;
    try discriminate; now rewrite IH.
Qed.

Lemma escapeHtml_keeps_noChar_star (text : string) :
  noChar "*" text = true -> noChar "*" (Utils.escapeHtml text) = true.
Proof.
  unfold noChar. induction text as [|c text IH]; simpl; [reflexivity|].
  intros H. apply andb_true_iff in H as [Hc Ht]. specialize (IH Ht).
  destruct c as [[] [] [] [] [] [] [] []]; simpl in *; auto.
Qed.

Lemma escapeHtml_keeps_noChar_underscore (text : string) :
  noChar "_" text = true -> noChar "_" (Utils.escapeHtml text) = true.
Proof.
  unfold noChar. induction text as [|c text IH]; simpl; [reflexivity|].
  intros H. apply andb_true_iff in H as [Hc Ht]. specialize (IH Ht).
  destruct c as [[] [] [] [] [] [] [] []]; simpl in *; auto.
Qed.

Lemma escapeHtml_keeps_noChar_newline (text : string) :
  noChar "010" text = true -> noChar "010" (Utils.escapeHtml text) = true.
Proof.
  unfold noChar. induction text as [|c text IH]; simpl; [reflexivity|].
  intros H. apply andb_true_iff in H as [Hc Ht]. specialize (IH Ht).
  destruct c as [[] [] [] [] [] [] [] []]; simpl in *; auto.
Qed.

Lemma prefix_noChar (a : ascii) (d s : string) :
  noChar a s = true -> String.prefix (String a d) s = false.
Proof.
  unfold noChar. destruct s as [|c s]; simpl; [reflexivity|].
  intros H. apply andb_true_iff in H as [Hc _].
  destruct (ascii_dec a c) as [->|Hne]; [|reflexivity].
  now rewrite Ascii.eqb_refl in Hc.
Qed.

(** A replacement pass whose delimiter does not occur changes nothing. *)
Lemma replaceDelimited_noChar (fuel : nat) (a : ascii) (d tag s : string) :
  noChar a s = true -> Utils.replaceDelimited fuel (String a d) tag s = s.
Proof.
  revert s. induction fuel as [|fuel IH]; intros s H; [reflexivity|].
  destruct s as [|c s]; [reflexivity|].
  cbn [Utils.replaceDelimited]. rewrite (prefix_noChar a d (String c s) H).
  unfold noChar in H. simpl in H. apply andb_true_iff in H as [_ H].
  now rewrite (IH s H).
Qed.

Lemma replaceNewlines_noChar (s : string) :
  noChar "010" s = true -> Utils.replaceNewlines s = s.
Proof.
  unfold noChar. induction s as [|c s IH]; simpl; [reflexivity|].
  intros H. apply andb_true_iff in H as [Hc Hs]. rewrite (IH Hs).
  destruct c as [[] [] [] [] [] [] [] []]; simpl in *; auto; discriminate.
Qed.

Lemma plain_text_rendered_as_is_holds (text : string) :
  plainText text = true ->
  Utils.parseFormatting text = Utils.escapeHtml text
  /\ renderedText text = text.
Proof.
  unfold plainText. intros H.
  apply andb_true_iff in H as [H H0].
  apply andb_true_iff in H as [H Hr]. apply andb_true_iff in H as [H Hn].
  apply andb_true_iff in H as [Hs Hu].
  assert (P : Utils.parseFormatting text = Utils.escapeHtml text).
  { unfold Utils.parseFormatting, Utils.replaceAllDelimited.
    pose proof (escapeHtml_keeps_noChar_star text Hs) as Hs'.
    pose proof (escapeHtml_keeps_noChar_underscore text Hu) as Hu'.
    pose proof (escapeHtml_keeps_noChar_newline text Hn) as Hn'.
    rewrite (replaceDelimited_noChar _ "*" "*" "strong" _ Hs').
    rewrite (replaceDelimited_noChar _ "_" "_" "strong" _ Hu').
    rewrite (replaceDelimited_noChar _ "*" "" "em" _ Hs').
    rewrite (replaceDelimited_noChar _ "_" "" "em" _ Hu').
    apply replaceNewlines_noChar, Hn'. }
  split; [exact P|].
  unfold renderedText. destruct (Utils.isEmojiOnly text); [reflexivity|].
  rewrite P. now apply htmlTextContent_escapeHtml.
Qed.

(** X2.  Text without emphasis marks, line breaks and U+0000 is only
    escaped by [parseFormatting], and the message shows exactly that
    text. *)
Theorem plain_text_rendered_as_is (text : string) :
  plainText text = true ->
  Utils.parseFormatting text = Utils.escapeHtml text
  /\ renderedText text = text.
Proof.
  exact (plain_text_rendered_as_is_holds text).
Qed.

Lemma plain_text_rendered_as_is_witness :
  Utils.parseFormatting "2 < 3 & more" = Utils.escapeHtml "2 < 3 & more"
  /\ renderedText "2 < 3 & more" = "2 < 3 & more".
Proof. exact (plain_text_rendered_as_is "2 < 3 & more" eq_refl). Defined.

(** ** What [addMessage] touches *)

Lemma addMessage_frame_holds (message : Message) (prepend : bool) (s : State) :
  let s' := snd (addMessage message prepend s) in
  inputValue s' = inputValue s /\ sendDisabled s' = sendDisabled s
  /\ typingShown s' = typingShown s /\ userId s' = userId s
  /\ isSending s' = isSending s /\ isLoadingMore s' = isLoadingMore s
  /\ hasMoreMessages s' = hasMoreMessages s
  /\ oldestMessageId s' = oldestMessageId s /\ scrollTop s' = scrollTop s
  /\ toasts s' = toasts s /\ requests s' = requests s
  /\ storedUserId s' = storedUserId s.
Proof.
  unfold addMessage, startsWithTemp. unfold_js.
  repeat case_step; simpl; repeat split; reflexivity.
Qed.

(** X3.  [addMessage] writes the children of the list and
    [lastMessageDate] only: the input, the send guard, the typing indicator,
    the pagination cursor, the scroll offset, the toasts and the requests are
    as before, whether the call returns or throws. *)
Theorem addMessage_frame (message : Message) (prepend : bool) (s : State) :
  let s' := snd (addMessage message prepend s) in
  inputValue s' = inputValue s /\ sendDisabled s' = sendDisabled s
  /\ typingShown s' = typingShown s /\ userId s' = userId s
  /\ isSending s' = isSending s /\ isLoadingMore s' = isLoadingMore s
  /\ hasMoreMessages s' = hasMoreMessages s
  /\ oldestMessageId s' = oldestMessageId s /\ scrollTop s' = scrollTop s
  /\ toasts s' = toasts s /\ requests s' = requests s
  /\ storedUserId s' = storedUserId s.
Proof.
  exact (addMessage_frame_holds message prepend s).
Qed.

Lemma addMessage_missing_id_holds (message : Message) (prepend : bool) (s : State) :
  id message = None ->
  addMessage message prepend s = (Thrown typeError, s).
Proof.
  intros H. unfold addMessage, startsWithTemp. rewrite H. unfold_js.
  destruct (isUser (role message)); reflexivity.
Qed.

(** X4.  A message without an id makes [addMessage] throw before it has
    written anything. *)
Theorem addMessage_missing_id (message : Message) (prepend : bool) (s : State) :
  id message = None ->
  addMessage message prepend s = (Thrown typeError, s).
Proof.
  exact (addMessage_missing_id_holds message prepend s).
Qed.

Lemma addMessage_missing_id_witness :
  addMessage (mkMessage None assistant "Hello" 1000 []) false freshPage
  = (Thrown typeError, freshPage).
Proof.
  exact (addMessage_missing_id (mkMessage None assistant "Hello" 1000 []) false
           freshPage eq_refl).
Defined.

(** X5.  [addMessage] never removes a child: it leaves the number of
    children as it is (reconciled in place, or thrown), or adds a wrapper, or
    adds a divider and a wrapper. *)
Theorem addMessage_grows (message : Message) (prepend : bool) (s : State) :
  (List.length (messagesContainer s)
   <= List.length (messagesContainer (snd (addMessage message prepend s)))
   <= 2 + List.length (messagesContainer s))%nat.
Proof.
  unfold addMessage, startsWithTemp. unfold_js.
  repeat case_step; simpl;
    rewrite ?length_app, ?updateWrapper_length; simpl; lia.
Qed.

(** A message from the assistant is never reconciled: it is added at the
    end, behind a divider when the day changed. *)
Lemma addMessage_assistant_appended (message : Message) (i : string) (s : State) :
  role message = assistant -> id message = Some i ->
  exists dividers,
    wrappers dividers = []
    /\ fst (addMessage message false s) = Normal tt
    /\ messagesContainer (snd (addMessage message false s))
       = (messagesContainer s ++ dividers
            ++ [MessageWrapper
                  (mkWrapper i assistant (String.prefix "temp-" i) false
                     (Utils.isEmojiOnly (content message))
                     (renderedText (content message)) (timestamp message)
                     (options message))])%list.
Proof.
  intros Hr Hi. unfold addMessage, startsWithTemp. rewrite Hr, Hi. unfold_js.
  simpl. destruct (lastMessageDate s) as [d|]; simpl.
  - destruct (d =? toDateString (timestamp message)); simpl.
    + exists []. repeat split; reflexivity.
    + exists [DateDivider (timestamp message)]. rewrite <- app_assoc.
      repeat split; reflexivity.
  - exists []. repeat split; reflexivity.
Qed.

(** ** More on [sendMessage] *)

(** The state an accepted call leaves while its request is outstanding. *)
Lemma sendMessage_begin_accepted (text : option string) (dateNow newDate : Z)
  (s : State) :
  isSending s = false ->
  Utils.truthy (contentToSend text s) = true ->
  exists dividers s1,
    wrappers dividers = []
    /\ sendMessage_begin text dateNow newDate s
       = (Normal (Some (mkMessage (Some (tempId dateNow)) user
                          (contentToSend text s) newDate [])), s1)
    /\ messagesContainer s1
       = (messagesContainer s ++ dividers
            ++ [MessageWrapper
                  (provisionalWrapper dateNow newDate (contentToSend text s) false)])%list
    /\ isSending s1 = true /\ sendDisabled s1 = true /\ typingShown s1 = true
    /\ inputValue s1 = (if textGiven text then inputValue s else "")
    /\ requests s1 = PostMessage (userId s) (contentToSend text s) :: requests s
    /\ toasts s1 = toasts s.
Proof.
  intros Hs Hc. unfold sendMessage_begin. unfold_js. rewrite Hs, Hc. simpl.
  destruct (addMessage_provisional_dividers dateNow newDate (contentToSend text s)
              (set_sendDisabled true (set_isSending true s)))
    as [dv [Hw [Hn Hm]]].
  pose proof (addMessage_frame_holds
                (mkMessage (Some (tempId dateNow)) user (contentToSend text s)
                   newDate [])
                false (set_sendDisabled true (set_isSending true s))) as F.
  destruct (addMessage _ false _) as [c sa]. simpl in Hn, Hm, F. subst c.
  destruct F as [F1 [F2 [F3 [F4 [F5 [F6 [F7 [F8 [F9 [F10 [F11 F12]]]]]]]]]]].
  exists dv.
  destruct (textGiven text); simpl; eexists; repeat split; simpl; auto;
    congruence.
Qed.

(** What every completion of an outstanding send leaves behind. *)
Lemma sendMessage_complete_frame (tempUserMsg : Message)
  (settled : Settled SendResponse) (s : State) :
  let s' := snd (sendMessage_complete tempUserMsg settled s) in
  inputValue s' = inputValue s /\ typingShown s' = false
  /\ isSending s' = false /\ requests s' = requests s
  /\ sendDisabled s'
     = negb (0 <? String.length (Utils.trim (inputValue s)))%nat.
Proof.
  unfold sendMessage_complete, tryFinally, tryCatch, sendMessage_try,
    sendMessage_catch, sendMessage_finally, handleInputChange, showToast,
    showTyping, scrollToBottom.
  destruct settled as [response|e].
  - destruct (assistant_message response) as [m|].
    + pose proof (addMessage_frame_holds m false (set_typingShown false s)) as F.
      unfold_js. simpl.
      destruct (addMessage m false (set_typingShown false s)) as [[[]|e] sa];
        simpl in *;
        destruct F as [F1 [F2 [F3 [F4 [F5 [F6 [F7 [F8 [F9 [F10 [F11 F12]]]]]]]]]]].
      * rewrite F1, F3, F11, orb_false_r. repeat split; reflexivity.
      * destruct (querySelector _ (messagesContainer sa)); simpl;
          rewrite F1, F11, orb_false_r; repeat split; reflexivity.
    + unfold_js. simpl. rewrite orb_false_r. repeat split; reflexivity.
  - unfold_js. simpl.
    destruct (querySelector _ (messagesContainer s)); simpl;
      rewrite orb_false_r; repeat split; reflexivity.
Qed.

(** X6.  Around a send.  When a call is accepted, the typing indicator
    is shown, the send button is disabled, the guard is taken, one request is
    issued, and the input field is emptied if the text came from it (it is
    left alone if the text was passed in).  When the request settles, in
    whatever way and in whatever state the page then is, the indicator is
    hidden, the guard is released, no request is issued, the input field is
    left as it is at that moment (with what the user typed meanwhile), and
    the send button is enabled exactly when the field then holds something
    besides white space. *)
Theorem sendMessage_indicator_and_input (text : option string)
  (dateNow newDate : Z) (s : State)
  (tempUserMsg : Message) (settled : Settled SendResponse) (s2 : State) :
  (isSending s = false ->
   Utils.truthy (contentToSend text s) = true ->
   let s1 := snd (sendMessage_begin text dateNow newDate s) in
   typingShown s1 = true /\ sendDisabled s1 = true /\ isSending s1 = true
   /\ inputValue s1 = (if textGiven text then inputValue s else "")
   /\ requests s1 = PostMessage (userId s) (contentToSend text s) :: requests s)
  /\ (let s' := snd (sendMessage_complete tempUserMsg settled s2) in
      typingShown s' = false /\ isSending s' = false
      /\ inputValue s' = inputValue s2
      /\ sendDisabled s'
         = negb (0 <? String.length (Utils.trim (inputValue s2)))%nat
      /\ requests s' = requests s2).
Proof.
  split.
  - intros Hs Hc.
    destruct (sendMessage_begin_accepted text dateNow newDate s Hs Hc)
      as [dv [s1 [_ [E [_ [Hg [Hd [Ht [Hi [Hr _]]]]]]]]]].
    rewrite E. simpl. auto.
  - destruct (sendMessage_complete_frame tempUserMsg settled s2)
      as [C1 [C2 [C3 [C4 C5]]]].
    simpl. auto.
Qed.

Lemma sendMessage_indicator_and_input_witness :
  inputValue (snd (sendMessage_begin None 1 1 (set_inputValue " Hi " freshPage)))
  = ""
  /\ sendDisabled
       (snd (sendMessage_begin None 1 1 (set_inputValue " Hi " freshPage)))
     = true.
Proof.
  destruct (proj1 (sendMessage_indicator_and_input None 1 1
                     (set_inputValue " Hi " freshPage)
                     (mkMessage (Some "temp-1") user "Hi" 1 [])
                     (Rejected "offline") freshPage) eq_refl eq_refl)
    as [_ [B [_ [A _]]]].
  exact (conj A B).
Defined.

(** X7.  A reply whose message has no id cannot be shown: [addMessage]
    throws inside the [try] block, and the call ends exactly as if the
    request had been rejected with that [TypeError] (toast, [failed] flag on
    the provisional entry), although the message was delivered. *)
Theorem sendMessage_unreadable_reply (text : option string) (dateNow newDate : Z)
  (reply : Message) (s : State) :
  id reply = None ->
  sendMessage text dateNow newDate
    (Fulfilled (mkSendResponse (Some reply))) s
  = sendMessage text dateNow newDate (Rejected typeError) s.
Proof.
  intros H. unfold sendMessage, bind.
  destruct (sendMessage_begin text dateNow newDate s) as [[[tmp|]|e] s1];
    try reflexivity.
  unfold sendMessage_complete, tryFinally, tryCatch, sendMessage_try,
    showTyping. unfold_js. simpl.
  rewrite (addMessage_missing_id_holds reply false _ H). simpl.
  unfold sendMessage_catch, showToast, showTyping. unfold_js. simpl.
  destruct (querySelector _ (messagesContainer s1)); reflexivity.
Qed.

Lemma sendMessage_unreadable_reply_witness :
  sendMessage (Some "Hi") 1 1
    (Fulfilled (mkSendResponse (Some (mkMessage None assistant "Hello" 2 []))))
    freshPage
  = sendMessage (Some "Hi") 1 1 (Rejected typeError) freshPage.
Proof.
  exact (sendMessage_unreadable_reply (Some "Hi") 1 1
           (mkMessage None assistant "Hello" 2 []) freshPage eq_refl).
Defined.

(** X8.  A send that succeeds does not confirm the provisional entry.
    An accepted call puts its entry, provisional id and [optimistic] class,
    at the end of the list.  When the request is fulfilled with a message of
    the assistant, in whatever state the list then is, the completion only
    adds the wrapper of that message at the end, behind a divider when the
    day changed: every child that is in the list at that moment is left
    exactly as it is, so the provisional entry, where it is still in the
    list, keeps its id and its class; no toast is shown. *)
Theorem sendMessage_success_keeps_provisional (text : option string)
  (dateNow newDate : Z) (s : State)
  (tempUserMsg reply : Message) (i : string) (s2 : State) :
  (isSending s = false ->
   Utils.truthy (contentToSend text s) = true ->
   exists dividers,
     wrappers dividers = []
     /\ messagesContainer (snd (sendMessage_begin text dateNow newDate s))
        = (messagesContainer s ++ dividers
             ++ [MessageWrapper
                   (provisionalWrapper dateNow newDate (contentToSend text s)
                      false)])%list)
  /\ (role reply = assistant -> id reply = Some i ->
      exists dividers s',
        wrappers dividers = []
        /\ sendMessage_complete tempUserMsg
             (Fulfilled (mkSendResponse (Some reply))) s2 = (Normal tt, s')
        /\ messagesContainer s'
           = (messagesContainer s2 ++ dividers
                ++ [MessageWrapper
                      (mkWrapper i assistant (String.prefix "temp-" i) false
                         (Utils.isEmojiOnly (content reply))
                         (renderedText (content reply)) (timestamp reply)
                         (options reply))])%list
        /\ toasts s' = toasts s2).
Proof.
  split.
  - intros Hs Hc.
    destruct (sendMessage_begin_accepted text dateNow newDate s Hs Hc)
      as [dv [s1 [Hw [E [Hm _]]]]].
    exists dv. rewrite E. auto.
  - intros Hr Hi.
    destruct (addMessage_assistant_appended reply i (set_typingShown false s2)
                Hr Hi) as [dv' [Hw' [Hn Hm']]].
    pose proof (addMessage_frame_holds reply false (set_typingShown false s2)) as F.
    exists dv'.
    unfold sendMessage_complete, tryFinally, tryCatch, sendMessage_try,
      sendMessage_finally, handleInputChange, showTyping, scrollToBottom.
    unfold_js. simpl.
    destruct (addMessage reply false (set_typingShown false s2)) as [c sa].
    simpl in *. subst c. simpl.
    destruct F as [_ [_ [_ [_ [_ [_ [_ [_ [_ [F10 _]]]]]]]]]].
    eexists. split; [exact Hw'|]. split; [reflexivity|]. simpl.
    split; [exact Hm'|exact F10].
Qed.

Lemma sendMessage_success_keeps_provisional_witness :
  exists dividers s',
    wrappers dividers = []
    /\ sendMessage_complete (mkMessage (Some "temp-1") user "Hi" 1 [])
         (Fulfilled (mkSendResponse (Some (mkMessage (Some "a1") assistant "Hello" 2 []))))
         (snd (sendMessage_begin (Some "Hi") 1 1 freshPage)) = (Normal tt, s')
    /\ messagesContainer s'
       = (messagesContainer (snd (sendMessage_begin (Some "Hi") 1 1 freshPage))
            ++ dividers
            ++ [MessageWrapper
                  (mkWrapper "a1" assistant (String.prefix "temp-" "a1") false
                     (Utils.isEmojiOnly "Hello") (renderedText "Hello") 2 [])])%list
    /\ toasts s' = toasts (snd (sendMessage_begin (Some "Hi") 1 1 freshPage)).
Proof.
  exact (proj2 (sendMessage_success_keeps_provisional (Some "Hi") 1 1 freshPage
                  (mkMessage (Some "temp-1") user "Hi" 1 [])
                  (mkMessage (Some "a1") assistant "Hello" 2 []) "a1"
                  (snd (sendMessage_begin (Some "Hi") 1 1 freshPage)))
           eq_refl eq_refl).
Defined.




(** ** More on loading older pages *)

Section PaginationMore.

Variable scrollHeight : list Node -> Z.

Lemma set_isLoadingMore_same (s : State) :
  isLoadingMore s = false ->
  set_isLoadingMore false (set_isLoadingMore true s) = s.
Proof. destruct s; simpl; intros ->; reflexivity. Qed.

Lemma loadOlderMessages_without_user_holds (s : State) :
  truthyId (storedUserId s) = false ->
  loadOlderMessages_begin scrollHeight s = (Normal None, s).
Proof.
  intros H.
  destruct (loadOlderMessages_begin_cases scrollHeight s)
    as [[E _]|[[E Hl]|[uid [E Hl]]]].
  - exact E.
  - now rewrite E, set_isLoadingMore_same.
  - exfalso. revert E. unfold loadOlderMessages_begin. unfold_js.
    destruct (isLoadingMore s || negb (hasMoreMessages s)
              || negb (truthyId (oldestMessageId s))); [discriminate|].
    simpl. destruct (storedUserId s) as [u|]; simpl in *.
    + rewrite H. discriminate.
    + discriminate.
Qed.

(** X10.  Without a user id in local storage [loadOlderMessages] issues no
    request and leaves the whole state as it was; in particular the guard it
    took is released again. *)
Theorem loadOlderMessages_without_user (s : State) :
  truthyId (storedUserId s) = false ->
  loadOlderMessages_begin scrollHeight s = (Normal None, s).
Proof.
  exact (loadOlderMessages_without_user_holds s).
Qed.

(** X11.  The end of the history is final: once a page comes back empty,
    the list, the cursor and the scroll offset are as they were, and every
    later call of [loadOlderMessages] returns at the guard without a
    request. *)
Theorem loadOlderMessages_end_of_history (remembered : Remembered)
  (response : PageResponse) (s : State) :
  messages response = [] ->
  let s' := execute (loadOlderMessages_complete scrollHeight remembered
                       (Fulfilled response)) s in
  messagesContainer s' = messagesContainer s
  /\ oldestMessageId s' = oldestMessageId s
  /\ scrollTop s' = scrollTop s
  /\ requests s' = requests s
  /\ loadOlderMessages_begin scrollHeight s' = (Normal None, s').
Proof.
  intros Hm s'. subst s'. unfold execute.
  rewrite loadOlderMessages_complete_cases, Hm. simpl.
  split; [reflexivity|]. split; [reflexivity|]. split; [reflexivity|].
  split; [reflexivity|]. apply loadOlderMessages_begin_guarded. right. left.
  reflexivity.
Qed.

(** A call that reaches its request passed every test of the guard. *)
Lemma loadOlderMessages_begin_started (s s1 : State) (remembered : Remembered) :
  loadOlderMessages_begin scrollHeight s = (Normal (Some remembered), s1) ->
  isLoadingMore s = false /\ hasMoreMessages s = true
  /\ truthyId (oldestMessageId s) = true
  /\ exists uid,
       storedUserId s = Some uid /\ Utils.truthy uid = true
       /\ remembered
          = mkRemembered (scrollHeight (messagesContainer s)) (scrollTop s)
       /\ s1 = set_requests
                 (GetMessages uid (oldestMessageId s) 20 :: requests s)
                 (set_isLoadingMore true s).
Proof.
  unfold loadOlderMessages_begin. unfold_js.
  destruct (isLoadingMore s); simpl; [discriminate|].
  destruct (hasMoreMessages s); simpl; [|discriminate].
  destruct (truthyId (oldestMessageId s)); simpl; [|discriminate].
  destruct (storedUserId s) as [uid|]; simpl; [|discriminate].
  destruct (Utils.truthy uid) eqn:Eu; simpl; [|discriminate].
  intros E. injection E as <- <-. repeat split. exists uid. repeat split.
  exact Eu.
Qed.

(** X12.  A page request that fails can be repeated.  The failed call
    leaves one toast and one logged request and, besides that, the state it
    started from; calling again issues the same request for the same
    cursor. *)
Theorem loadOlderMessages_retry (e : string) (s s1 : State)
  (remembered : Remembered) :
  loadOlderMessages_begin scrollHeight s = (Normal (Some remembered), s1) ->
  exists uid,
    loadOlderMessages scrollHeight (Rejected e) s
    = (Normal tt,
       set_toasts (("Failed to load older messages", "error") :: toasts s)
         (set_requests (GetMessages uid (oldestMessageId s) 20 :: requests s) s))
    /\ requests
         (snd (loadOlderMessages_begin scrollHeight
                 (snd (loadOlderMessages scrollHeight (Rejected e) s))))
       = GetMessages uid (oldestMessageId s) 20
           :: GetMessages uid (oldestMessageId s) 20 :: requests s.
Proof.
  intros Hb.
  destruct (loadOlderMessages_begin_started s s1 remembered Hb)
    as [Hl [Hh [Ho [uid [Hu [Ht [-> ->]]]]]]].
  exists uid.
  assert (R : loadOlderMessages scrollHeight (Rejected e) s
              = (Normal tt,
                 set_toasts (("Failed to load older messages", "error") :: toasts s)
                   (set_requests
                      (GetMessages uid (oldestMessageId s) 20 :: requests s) s))).
  { unfold loadOlderMessages. rewrite (execute_bind _ _ _ _ _ Hb).
    rewrite loadOlderMessages_complete_cases. simpl.
    destruct s; simpl in *; subst; reflexivity. }
  split; [exact R|]. rewrite R.
  unfold loadOlderMessages_begin. unfold_js. simpl.
  rewrite Hl, Hh, Ho. simpl. rewrite Hu. simpl. rewrite Ht. reflexivity.
Qed.

(** X13.  A scroll event leads to a page request exactly when the offset is
    below 100, no page is being loaded, more history is expected, a cursor is
    set and a user id is stored; in every other case it changes nothing. *)
Theorem handleScroll_requests (s : State) :
  let wanted :=
    (scrollTop s <? 100) && negb (isLoadingMore s) && hasMoreMessages s
    && truthyId (oldestMessageId s) && truthyId (storedUserId s) in
  (wanted = true ->
   exists uid,
     storedUserId s = Some uid
     /\ handleScroll scrollHeight s
        = (Normal (Some (mkRemembered (scrollHeight (messagesContainer s))
                           (scrollTop s))),
           set_requests (GetMessages uid (oldestMessageId s) 20 :: requests s)
             (set_isLoadingMore true s)))
  /\ (wanted = false -> handleScroll scrollHeight s = (Normal None, s)).
Proof.
  assert (U : handleScroll scrollHeight s
              = if (scrollTop s <? 100) && negb (isLoadingMore s)
                   && hasMoreMessages s
                then loadOlderMessages_begin scrollHeight s
                else (Normal None, s)).
  { unfold handleScroll. unfold_js.
    destruct ((scrollTop s <? 100) && negb (isLoadingMore s)
              && hasMoreMessages s); reflexivity. }
  rewrite U. clear U.
  destruct (scrollTop s <? 100); simpl; [|split; [discriminate|reflexivity]].
  destruct (isLoadingMore s) eqn:El; simpl;
    [split; [discriminate|reflexivity]|].
  destruct (hasMoreMessages s) eqn:Eh; simpl;
    [|split; [discriminate|reflexivity]].
  destruct (truthyId (oldestMessageId s)) eqn:Eo; simpl.
  - destruct (truthyId (storedUserId s)) eqn:Eu.
    + split; [|discriminate]. intros _.
      destruct (storedUserId s) as [uid|] eqn:Es; [|discriminate].
      exists uid. split; [reflexivity|].
      unfold loadOlderMessages_begin. unfold_js. rewrite El, Eh, Eo. simpl.
      rewrite Es. simpl in Eu. rewrite Eu. reflexivity.
    + split; [discriminate|]. intros _.
      now apply loadOlderMessages_without_user_holds.
  - split; [discriminate|]. intros _.
    unfold loadOlderMessages_begin. unfold_js. rewrite El, Eh, Eo. reflexivity.
Qed.

End PaginationMore.

Lemma loadOlderMessages_without_user_witness :
  loadOlderMessages_begin rowLayout
    (mkState [] "" true false None false None false true (Some "m10") 0 [] [] None)
  = (Normal None,
     mkState [] "" true false None false None false true (Some "m10") 0 [] [] None).
Proof.
  exact (loadOlderMessages_without_user rowLayout
           (mkState [] "" true false None false None false true (Some "m10") 0 []
              [] None) eq_refl).
Defined.

Lemma loadOlderMessages_end_of_history_witness :
  loadOlderMessages_begin rowLayout
    (execute (loadOlderMessages_complete rowLayout (mkRemembered 40 50)
                (Fulfilled (mkPageResponse [] true None)))
       (snd (loadOlderMessages_begin rowLayout historyLoaded)))
  = (Normal None,
     execute (loadOlderMessages_complete rowLayout (mkRemembered 40 50)
                (Fulfilled (mkPageResponse [] true None)))
       (snd (loadOlderMessages_begin rowLayout historyLoaded))).
Proof.
  exact (proj2 (proj2 (proj2 (proj2
           (loadOlderMessages_end_of_history rowLayout (mkRemembered 40 50)
              (mkPageResponse [] true None)
              (snd (loadOlderMessages_begin rowLayout historyLoaded))
              eq_refl))))).
Defined.

Lemma loadOlderMessages_retry_witness :
  exists uid,
    loadOlderMessages rowLayout (Rejected "offline") historyLoaded
    = (Normal tt,
       set_toasts
         (("Failed to load older messages", "error") :: toasts historyLoaded)
         (set_requests
            (GetMessages uid (oldestMessageId historyLoaded) 20
               :: requests historyLoaded) historyLoaded))
    /\ requests
         (snd (loadOlderMessages_begin rowLayout
                 (snd (loadOlderMessages rowLayout (Rejected "offline")
                         historyLoaded))))
       = GetMessages uid (oldestMessageId historyLoaded) 20
           :: GetMessages uid (oldestMessageId historyLoaded) 20
           :: requests historyLoaded.
Proof.
  exact (loadOlderMessages_retry rowLayout "offline" historyLoaded
           (snd (loadOlderMessages_begin rowLayout historyLoaded))
           (mkRemembered 40 50) eq_refl).
Defined.

Lemma handleScroll_requests_witness :
  handleScroll rowLayout (execute (userScroll 150) historyLoaded)
  = (Normal None, execute (userScroll 150) historyLoaded).
Proof.
  exact (proj2 (handleScroll_requests rowLayout
                  (execute (userScroll 150) historyLoaded)) eq_refl).
Defined.

(** ** Pages *)

Lemma insertByTimestamp_perm (m : Message) (l : list Message) :
  Permutation (m :: l) (insertByTimestamp m l).
Proof.
  induction l as [|x l IH]; simpl; [reflexivity|].
  destruct (timestamp m <=? timestamp x); [reflexivity|].
  rewrite perm_swap. now apply perm_skip.
Qed.

Lemma sortByTimestamp_perm (l : list Message) :
  Permutation l (sortByTimestamp l).
Proof.
  induction l as [|m l IH]; simpl; [reflexivity|].
  rewrite <- insertByTimestamp_perm. now apply perm_skip.
Qed.

Lemma insertByTimestamp_sorted (m : Message) (l : list Message) :
  StronglySorted Z.le (map timestamp l) ->
  StronglySorted Z.le (map timestamp (insertByTimestamp m l)).
Proof.
  induction l as [|x l IH]; simpl; intros H.
  - constructor; constructor.
  - inversion H as [|a l' Hs Hf]; subst.
    destruct (timestamp m <=? timestamp x) eqn:E; simpl.
    + apply Z.leb_le in E. constructor; [exact H|].
      constructor; [exact E|].
      eapply Forall_impl; [|exact Hf]. intros z Hz. simpl in Hz. lia.
    + apply Z.leb_gt in E. constructor; [now apply IH|].
      apply (Permutation_Forall
               (Permutation_map timestamp (insertByTimestamp_perm m l))).
      simpl. constructor; [lia|exact Hf].
Qed.

Lemma sortByTimestamp_sorted (l : list Message) :
  StronglySorted Z.le (map timestamp (sortByTimestamp l)).
Proof.
  induction l as [|m l IH]; simpl; [constructor|].
  now apply insertByTimestamp_sorted.
Qed.

Lemma buildFragment_wrappers (lastDate : option Z) (sorted : list Message) :
  wrappers (buildFragment lastDate sorted) = map pageWrapper sorted.
Proof.
  revert lastDate. induction sorted as [|m rest IH]; intros lastDate; simpl.
  - reflexivity.
  - destruct (match lastDate with
              | Some d => d =? toDateString (timestamp m)
              | None => false
              end); simpl; now rewrite IH.
Qed.

(** X14.  [prependMessages] shows a page oldest first, whatever order the
    server sent it in: the wrappers it puts in front of the ones already
    shown are those of the page's messages, each exactly once, by ascending
    timestamp.  None of them has the [optimistic] class or option buttons,
    even where the message has a provisional id or carries options.
    [lastMessageDate] is not touched. *)
Theorem prependMessages_page (page : list Message) (s : State) :
  let s' := execute (prependMessages page) s in
  wrappers (messagesContainer s')
  = (map pageWrapper (sortByTimestamp page) ++ wrappers (messagesContainer s))%list
  /\ Permutation page (sortByTimestamp page)
  /\ StronglySorted Z.le (map timestamp (sortByTimestamp page))
  /\ lastMessageDate s' = lastMessageDate s.
Proof.
  simpl. rewrite wrappers_app, buildFragment_wrappers.
  split; [reflexivity|]. split; [apply sortByTimestamp_perm|].
  split; [apply sortByTimestamp_sorted|reflexivity].
Qed.

(** ** The first load *)

Lemma querySelector_none_existsb (sel : Wrapper -> bool) (nodes : list Node) :
  existsb sel (wrappers nodes) = false -> querySelector sel nodes = None.
Proof.
  induction nodes as [|[w|t] rest IH]; simpl; intros H.
  - reflexivity.
  - apply orb_false_iff in H as [H1 H2]. now rewrite H1, IH.
  - now rewrite IH.
Qed.

(** A confirmed message finds no provisional entry to merge with when the
    list holds none, and is appended. *)
Lemma addMessage_confirmed_appended (m : Message) (s : State) :
  confirmed m = true ->
  existsb idStartsWithTemp (wrappers (messagesContainer s)) = false ->
  exists s',
    addMessage m false s = (Normal tt, s')
    /\ wrappers (messagesContainer s')
       = (wrappers (messagesContainer s) ++ [shownWrapper m])%list.
Proof.
  unfold confirmed, shownWrapper. intros Hc Hn.
  destruct (id m) as [i|] eqn:Ei; [|discriminate].
  apply negb_true_iff in Hc.
  pose proof (querySelector_none_existsb _ _ Hn) as Hq.
  unfold addMessage, startsWithTemp. rewrite Ei. unfold_js. simpl.
  rewrite Hc. simpl.
  destruct (isUser (role m)); simpl; rewrite ?Hq;
    (destruct (lastMessageDate s) as [d|]; simpl;
     [destruct (d =? toDateString (timestamp m)); simpl|]);
    eexists; (split; [reflexivity|]); simpl;
    rewrite ?wrappers_app; simpl; rewrite ?app_nil_r; reflexivity.
Qed.

(** The [forEach] over confirmed messages, started on a list without
    provisional entries, shows them all. *)
Lemma forEach_confirmed (ms : list Message) (acc : M unit) (s s0 : State) :
  acc s = (Normal tt, s0) ->
  forallb confirmed ms = true ->
  existsb idStartsWithTemp (wrappers (messagesContainer s0)) = false ->
  exists sN,
    fold_left (fun acc message => acc ;; addMessage message false) ms acc s
    = (Normal tt, sN)
    /\ wrappers (messagesContainer sN)
       = (wrappers (messagesContainer s0) ++ map shownWrapper ms)%list
    /\ (toasts sN = toasts s0 /\ oldestMessageId sN = oldestMessageId s0
        /\ hasMoreMessages sN = hasMoreMessages s0).
Proof.
  revert acc s0. induction ms as [|m ms IH]; intros acc s0 Ha Hc Hn; simpl.
  - exists s0. rewrite app_nil_r. auto.
  - simpl in Hc. apply andb_true_iff in Hc as [Hm Hms].
    destruct (addMessage_confirmed_appended m s0 Hm Hn) as [s1 [E1 W1]].
    pose proof (addMessage_frame_holds m false s0) as F. rewrite E1 in F. simpl in F.
    destruct F as [_ [_ [_ [_ [_ [_ [F7 [F8 [_ [F10 _]]]]]]]]]].
    destruct (IH (acc ;; addMessage m false) s1) as [sN [EN [WN [TN [ON HN]]]]].
    + unfold bind. now rewrite Ha.
    + exact Hms.
    + rewrite W1, existsb_app, Hn. simpl. rewrite orb_false_r.
      unfold idStartsWithTemp, shownWrapper, confirmed in *. simpl.
      destruct (id m) as [i|]; [|discriminate].
      now apply negb_true_iff in Hm.
    + exists sN. split; [exact EN|]. split.
      * rewrite WN, W1, <- app_assoc. reflexivity.
      * repeat split; congruence.
Qed.

Lemma loadMessages_shows_page_holds (response : PageResponse) (first : Message)
  (rest : list Message) (s : State) :
  messages response = first :: rest ->
  forallb confirmed (messages response) = true ->
  exists s',
    loadMessages_complete (Fulfilled response) s = (Normal tt, s')
    /\ wrappers (messagesContainer s') = map shownWrapper (messages response)
    /\ dividersExact (messagesContainer s') = true
    /\ oldestMessageId s' = id first
    /\ hasMoreMessages s' = has_more response
    /\ toasts s' = toasts s.
Proof.
  intros Hm Hc. rewrite Hm in Hc.
  destruct (forEach_confirmed (first :: rest) (ret tt)
              (set_lastMessageDate None (set_messagesContainer [] s))
              (set_lastMessageDate None (set_messagesContainer [] s))
              eq_refl Hc eq_refl) as [sN [EN [WN [TN _]]]].
  pose proof (forEach_addMessage_invariant (first :: rest) (ret tt)
                (set_lastMessageDate None (set_messagesContainer [] s))
                (conj eq_refl eq_refl)) as [Hd _].
  rewrite EN in Hd. cbn [snd] in Hd.
  unfold loadMessages_complete, tryCatch. rewrite Hm. rewrite !bind_modify.
  rewrite (execute_bind _ _ _ _ _ EN).
  unfold setHasMore, setOldestMessageId, scrollToBottom. unfold_js.
  eexists. split; [reflexivity|]. cbn.
  split; [exact WN|]. split; [exact Hd|]. repeat split. exact TN.
Qed.

(** X15.  The first load, on a page of confirmed messages: whatever the
    list held before, it now shows exactly the messages of the page, in the
    order the server sent them, with date dividers exactly between adjacent
    messages of different days; the cursor is the id of the first message of
    the page, [hasMoreMessages] is what the reply says, and no toast is
    shown. *)
Theorem loadMessages_shows_page (response : PageResponse) (first : Message)
  (rest : list Message) (s : State) :
  messages response = first :: rest ->
  forallb confirmed (messages response) = true ->
  exists s',
    loadMessages_complete (Fulfilled response) s = (Normal tt, s')
    /\ wrappers (messagesContainer s') = map shownWrapper (messages response)
    /\ dividersExact (messagesContainer s') = true
    /\ oldestMessageId s' = id first
    /\ hasMoreMessages s' = has_more response
    /\ toasts s' = toasts s.
Proof.
  exact (loadMessages_shows_page_holds response first rest s).
Qed.

Lemma loadMessages_shows_page_witness :
  exists s',
    loadMessages_complete (Fulfilled latestPage) historyLoaded = (Normal tt, s')
    /\ wrappers (messagesContainer s') = map shownWrapper (messages latestPage)
    /\ dividersExact (messagesContainer s') = true
    /\ oldestMessageId s' = Some "m10"
    /\ hasMoreMessages s' = has_more latestPage
    /\ toasts s' = toasts historyLoaded.
Proof.
  exact (loadMessages_shows_page latestPage
           (mkMessage (Some "m10") assistant "Welcome" 90000000 []) []
           historyLoaded eq_refl eq_refl).
Defined.

(** Once a message has made [addMessage] throw, the [forEach] is over. *)
Lemma forEach_thrown (ms : list Message) (acc : M unit) (s s0 : State) (e : string) :
  acc s = (Thrown e, s0) ->
  fold_left (fun acc message => acc ;; addMessage message false) ms acc s
  = (Thrown e, s0).
Proof.
  revert acc. induction ms as [|m ms IH]; intros acc Ha; simpl; [exact Ha|].
  apply IH. unfold bind. now rewrite Ha.
Qed.

(** X16.  The first load stops at a message it cannot show.  When a message
    of the page has no id, the list has already been emptied and shows the
    confirmed messages that came before it, nothing of what came after; the
    error toast is shown; and the cursor and [hasMoreMessages] keep the
    values they had before the load. *)
Theorem loadMessages_stops_at_unreadable (response : PageResponse)
  (good rest : list Message) (bad : Message) (s : State) :
  messages response = (good ++ bad :: rest)%list ->
  forallb confirmed good = true ->
  id bad = None ->
  exists s',
    loadMessages_complete (Fulfilled response) s = (Normal tt, s')
    /\ wrappers (messagesContainer s') = map shownWrapper good
    /\ toasts s' = ("Failed to load messages", "error") :: toasts s
    /\ oldestMessageId s' = oldestMessageId s
    /\ hasMoreMessages s' = hasMoreMessages s.
Proof.
  intros Hm Hc Hb.
  destruct (forEach_confirmed good (ret tt)
              (set_lastMessageDate None (set_messagesContainer [] s))
              (set_lastMessageDate None (set_messagesContainer [] s))
              eq_refl Hc eq_refl) as [sG [EG [WG [TG [OG HG]]]]].
  assert (EF : fold_left (fun acc message => acc ;; addMessage message false)
                 (good ++ bad :: rest) (ret tt)
                 (set_lastMessageDate None (set_messagesContainer [] s))
               = (Thrown typeError, sG)).
  { rewrite fold_left_app. cbn [fold_left]. apply forEach_thrown.
    rewrite (execute_bind _ _ _ _ _ EG). now apply addMessage_missing_id_holds. }
  unfold loadMessages_complete, tryCatch. rewrite Hm.
  destruct (good ++ bad :: rest)%list as [|first l] eqn:El.
  { destruct good; discriminate. }
  rewrite !bind_modify. unfold bind at 1. rewrite EF.
  unfold showToast, modify. eexists. split; [reflexivity|]. cbn.
  simpl in TG, OG, HG. split; [exact WG|]. repeat split; congruence.
Qed.

Lemma loadMessages_stops_at_unreadable_witness :
  exists s',
    loadMessages_complete
      (Fulfilled
         (mkPageResponse
            [mkMessage (Some "m1") user "Hi" 1000 [];
             mkMessage None assistant "Hello" 2000 [];
             mkMessage (Some "m3") user "Back" 3000 []] true None))
      historyLoaded = (Normal tt, s')
    /\ wrappers (messagesContainer s')
       = map shownWrapper [mkMessage (Some "m1") user "Hi" 1000 []]
    /\ toasts s' = ("Failed to load messages", "error") :: toasts historyLoaded
    /\ oldestMessageId s' = oldestMessageId historyLoaded
    /\ hasMoreMessages s' = hasMoreMessages historyLoaded.
Proof.
  exact (loadMessages_stops_at_unreadable
           (mkPageResponse
              [mkMessage (Some "m1") user "Hi" 1000 [];
               mkMessage None assistant "Hello" 2000 [];
               mkMessage (Some "m3") user "Back" 3000 []] true None)
           [mkMessage (Some "m1") user "Hi" 1000 []]
           [mkMessage (Some "m3") user "Back" 3000 []]
           (mkMessage None assistant "Hello" 2000 [])
           historyLoaded eq_refl eq_refl eq_refl).
Defined.

(** ** More on the transport *)

(** X17.  [reconnectAttempts] never exceeds [maxReconnectAttempts],
    whatever happens to the transport: sockets opening and closing, timers
    firing, the application calling [connect]. *)
Theorem reconnectAttempts_bounded (t t' : WS.Transport) (es : list WS.Event) :
  WS.run t es t' ->
  (WS.reconnectAttempts t <= WS.maxReconnectAttempts)%nat ->
  (WS.reconnectAttempts t' <= WS.maxReconnectAttempts)%nat.
Proof.
  induction 1 as [t|t e t1 es t2 Hstep Hrun IH]; intros Hb; [exact Hb|].
  apply IH. exact (step_attempts_bounded _ _ _ Hstep Hb).
Qed.

Lemma reconnectAttempts_bounded_witness :
  (WS.reconnectAttempts givenUp <= WS.maxReconnectAttempts)%nat.
Proof.
  apply (reconnectAttempts_bounded (WS.init WS.declared) givenUp serverDown
           serverDown_run).
  apply Nat.le_0_l.
Defined.

Lemma nth_error_setReadyState_eq (i : nat) (r r0 : WS.ReadyState)
  (l : list WS.ReadyState) :
  nth_error l i = Some r0 -> nth_error (WS.setReadyState i r l) i = Some r.
Proof.
  revert i. induction l as [|x l IH]; intros [|i] H; simpl in *;
    try discriminate; auto.
Qed.

Lemma nth_error_setReadyState_neq (i j : nat) (r : WS.ReadyState)
  (l : list WS.ReadyState) :
  i <> j -> nth_error (WS.setReadyState i r l) j = nth_error l j.
Proof.
  revert i j. induction l as [|x l IH]; intros [|i] [|j] H; simpl;
    try reflexivity; try congruence.
  apply IH. congruence.
Qed.

Lemma setReadyState_length (i : nat) (r : WS.ReadyState) (l : list WS.ReadyState) :
  List.length (WS.setReadyState i r l) = List.length l.
Proof.
  revert i. induction l as [|x l IH]; intros [|i]; simpl; auto.
Qed.

Lemma clearInterval_single (h : option nat) (running : list nat) :
  running = [] \/ (exists i, running = [i] /\ h = Some i) ->
  WS.clearInterval h running = [].
Proof.
  intros [->|[i [-> ->]]]; simpl.
  - now destruct h.
  - now rewrite Nat.eqb_refl.
Qed.

(** Changing the state of a socket that is alive into a state that is alive
    leaves the sockets that are alive where they were. *)
Lemma setReadyState_live (i : nat) (r r0 : WS.ReadyState) (l : list WS.ReadyState) :
  nth_error l i = Some r0 -> isLive r0 = true ->
  (forall a ra, nth_error l a = Some ra -> isLive ra = true -> S a = List.length l) ->
  forall a ra,
    nth_error (WS.setReadyState i r l) a = Some ra -> isLive ra = true ->
    S a = List.length (WS.setReadyState i r l).
Proof.
  intros Hi Li Huniq a ra Ha La. rewrite setReadyState_length.
  destruct (Nat.eq_dec i a) as [<-|Hne].
  - exact (Huniq i r0 Hi Li).
  - rewrite nth_error_setReadyState_neq in Ha by exact Hne.
    exact (Huniq a ra Ha La).
Qed.

Lemma step_oneConnection (t t' : WS.Transport) (e : WS.Event) :
  WS.step t e t' -> WS.isExternalConnect e = false ->
  oneConnection t -> oneConnection t'.
Proof.
  intros Hstep He [Huniq [Hlen [Hpend Hrun]]].
  inversion Hstep; subst; try discriminate.
  - (* open *)
    assert (Hnil : WS.reconnectTimers t = []).
    { destruct (WS.reconnectTimers t) as [|d l] eqn:Et; [reflexivity|].
      assert (Hc : WS.allClosed t) by (apply Hpend; discriminate).
      specialize (Hc _ _ H). discriminate. }
    assert (Hno : WS.runningIntervals t = []).
    { destruct Hrun as [Hr|[j [Hr [Hp Ho]]]]; [exact Hr|].
      assert (Hi : S i = List.length (WS.sockets t))
        by (apply (Huniq i _ H); reflexivity).
      assert (Hj : S j = List.length (WS.sockets t))
        by (destruct Ho as [Ho|Ho]; apply (Huniq j _ Ho); reflexivity).
      assert (i = j) by lia. subst.
      destruct Ho as [Ho|Ho]; rewrite H in Ho; discriminate. }
    unfold oneConnection, WS.onopen. simpl. rewrite Hnil, Hno.
    split; [|split; [simpl; lia|split; [congruence|]]].
    + apply (setReadyState_live i WS.OPEN WS.CONNECTING _ H eq_refl Huniq).
    + right. exists i. repeat split. left.
      eapply nth_error_setReadyState_eq; exact H.
  - (* close *)
    assert (Hlive : isLive r = true) by (destruct r; try reflexivity; congruence).
    assert (Hnil : WS.reconnectTimers t = []).
    { destruct (WS.reconnectTimers t) as [|d l] eqn:Et; [reflexivity|].
      assert (Hc : WS.allClosed t) by (apply Hpend; discriminate).
      specialize (Hc _ _ H). congruence. }
    assert (Hclosed : forall a r', nth_error (WS.setReadyState i WS.CLOSED (WS.sockets t)) a
                                   = Some r' -> r' = WS.CLOSED).
    { intros a r' Ha. destruct (Nat.eq_dec i a) as [<-|Hne].
      - rewrite (nth_error_setReadyState_eq i WS.CLOSED r _ H) in Ha. congruence.
      - rewrite nth_error_setReadyState_neq in Ha by exact Hne.
        destruct (isLive r') eqn:Lr; [|destruct r'; try discriminate; reflexivity].
        exfalso. apply Hne.
        pose proof (Huniq i r H Hlive). pose proof (Huniq a r' Ha Lr). lia. }
    assert (Hclear : WS.clearInterval (WS.pingInterval t) (WS.runningIntervals t) = []).
    { apply clearInterval_single. destruct Hrun as [Hr|[j [Hr [Hp _]]]]; eauto. }
    unfold oneConnection, WS.onclose. rewrite Hclear, Hnil.
    destruct (WS.reconnectAttempts t <? WS.maxReconnectAttempts)%nat; simpl;
      (split; [|split; [lia|split; [|left; reflexivity]]]).
    + intros a ra Ha La. rewrite (Hclosed _ _ Ha) in La. discriminate.
    + intros _ a r' Ha. exact (Hclosed _ _ Ha).
    + intros a ra Ha La. rewrite (Hclosed _ _ Ha) in La. discriminate.
    + intros _ a r' Ha. exact (Hclosed _ _ Ha).
  - (* error *)
    unfold WS.onerror. repeat split; assumption.
  - (* timer *)
    assert (Hc : WS.allClosed t).
    { apply Hpend. intros Hn. rewrite Hn in H. destruct k; discriminate. }
    assert (Hnil : WS.removeNth k (WS.reconnectTimers t) = []).
    { pose proof (removeNth_length _ _ _ H) as Hl.
      destruct (WS.removeNth k (WS.reconnectTimers t)); [reflexivity|].
      simpl in Hl. lia. }
    assert (Hno : WS.runningIntervals t = []).
    { destruct Hrun as [Hr|[j [_ [_ [Ho|Ho]]]]]; [exact Hr| |];
        specialize (Hc _ _ Ho); discriminate. }
    unfold oneConnection, WS.connect. simpl. rewrite Hnil, Hno.
    split; [|split; [simpl; lia|split; [congruence|left; reflexivity]]].
    intros a ra Ha La. rewrite length_app. simpl.
    destruct (Nat.lt_ge_cases a (List.length (WS.sockets t))) as [Hlt|Hge].
    + rewrite nth_error_app1 in Ha by exact Hlt.
      rewrite (Hc _ _ Ha) in La. discriminate.
    + rewrite nth_error_app2 in Ha by exact Hge.
      destruct (a - List.length (WS.sockets t))%nat as [|n] eqn:En.
      * lia.
      * simpl in Ha. destruct n; discriminate.
  - (* closing *)
    assert (Hlive : isLive r = true) by (destruct r; try reflexivity; congruence).
    assert (Hnil : WS.reconnectTimers t = []).
    { destruct (WS.reconnectTimers t) as [|d l] eqn:Et; [reflexivity|].
      assert (Hc : WS.allClosed t) by (apply Hpend; discriminate).
      specialize (Hc _ _ H). congruence. }
    unfold oneConnection, WS.closing. simpl. rewrite Hnil.
    split; [|split; [simpl; lia|split; [congruence|]]].
    + apply (setReadyState_live i WS.CLOSING r _ H Hlive Huniq).
    + destruct Hrun as [Hr|[j [Hr [Hp Ho]]]]; [left; exact Hr|].
      right. exists j. split; [exact Hr|]. split; [exact Hp|].
      destruct (Nat.eq_dec i j) as [<-|Hne].
      * right. eapply nth_error_setReadyState_eq; exact H.
      * rewrite nth_error_setReadyState_neq by exact Hne. exact Ho.
Qed.

Lemma init_oneConnection : oneConnection (WS.init WS.declared).
Proof.
  unfold oneConnection. simpl. split; [|split; [lia|split; [congruence|now left]]].
  intros [|i] r Hi _; simpl in *; [reflexivity|destruct i; discriminate].
Qed.

Lemma run_oneConnection (t t' : WS.Transport) (es : list WS.Event) :
  WS.run t es t' -> automatic es = true -> oneConnection t -> oneConnection t'.
Proof.
  induction 1 as [t0|t0 e t1 es t2 Hstep Hrun IH]; intros Ha H0; [exact H0|].
  simpl in Ha. apply andb_true_iff in Ha as [He Hes].
  apply IH; [exact Hes|].
  apply (step_oneConnection _ _ _ Hstep); [|exact H0].
  now apply negb_true_iff in He.
Qed.

(** X18.  Left to itself (the application calls [connect] once, through
    [init]), the transport has one connection at a time: at most one socket
    is not closed.  A keepalive timer is running only for the socket
    constructed last ([this.socket]) and only while that socket is open or
    closing: [onclose] has cancelled the timer of every socket that closed,
    so none runs once every socket is closed.  While the timer runs, its
    callback sends a ping exactly when that socket is open, not while it is
    closing. *)
Theorem keepalive_of_current_socket (t : WS.Transport) (es : list WS.Event) :
  WS.run (WS.init WS.declared) es t ->
  automatic es = true ->
  (forall h, In h (WS.runningIntervals t) ->
             (nth_error (WS.sockets t) h = Some WS.OPEN
              \/ nth_error (WS.sockets t) h = Some WS.CLOSING)
             /\ WS.socket t = nth_error (WS.sockets t) h
             /\ (WS.pingCallback t = true
                 <-> nth_error (WS.sockets t) h = Some WS.OPEN))
  /\ (forall i j r r',
        nth_error (WS.sockets t) i = Some r ->
        nth_error (WS.sockets t) j = Some r' ->
        r <> WS.CLOSED -> r' <> WS.CLOSED -> i = j)
  /\ (WS.allClosed t -> WS.runningIntervals t = []).
Proof.
  intros Hrun Ha.
  pose proof (run_oneConnection _ _ _ Hrun Ha init_oneConnection) as Hinv.
  destruct Hinv as [Huniq [_ [_ Hr]]].
  assert (Hlive : forall r, r <> WS.CLOSED -> isLive r = true)
    by (intros r Hne; destruct r; try reflexivity; congruence).
  split; [|split].
  - intros h Hin. destruct Hr as [Hr|[i [Hr [_ Ho]]]]; rewrite Hr in Hin.
    + contradiction.
    + destruct Hin as [<-|[]].
      assert (Hi : S i = List.length (WS.sockets t))
        by (destruct Ho as [Ho|Ho]; apply (Huniq i _ Ho); reflexivity).
      assert (Hs : WS.socket t = nth_error (WS.sockets t) i)
        by (unfold WS.socket; rewrite <- Hi; reflexivity).
      split; [exact Ho|]. split; [exact Hs|].
      unfold WS.pingCallback. rewrite Hs.
      destruct Ho as [Ho|Ho]; rewrite Ho; split; congruence.
  - intros i j r r' Hi Hj Li Lj.
    pose proof (Huniq i r Hi (Hlive r Li)).
    pose proof (Huniq j r' Hj (Hlive r' Lj)). lia.
  - intros Hc. destruct Hr as [Hr|[i [_ [_ [Ho|Ho]]]]]; [exact Hr| |];
      specialize (Hc _ _ Ho); discriminate.
Qed.

Lemma keepalive_of_current_socket_witness :
  nth_error (WS.sockets (WS.onopen 0 (WS.init WS.declared))) 0 = Some WS.OPEN
  \/ nth_error (WS.sockets (WS.onopen 0 (WS.init WS.declared))) 0
     = Some WS.CLOSING.
Proof.
  exact (proj1 (proj1 (keepalive_of_current_socket
                         (WS.onopen 0 (WS.init WS.declared))
                         [WS.SocketOpen 0]
                         (WS.run_cons _ _ _ _ _
                            (WS.step_open (WS.init WS.declared) 0 eq_refl)
                            (WS.run_nil _))
                         eq_refl) 0%nat (or_introl eq_refl))).
Defined.

(** [WS.close()] starts the closing handshake of [this.socket], or does
    nothing when there is no socket or it is already closing or closed. *)
Lemma close_starts_closing (t : WS.Transport) :
  WS.close t = t
  \/ WS.step t (WS.SocketClosing (Nat.pred (List.length (WS.sockets t))))
       (WS.close t).
Proof.
  unfold WS.close. destruct (WS.socket t) as [[]|] eqn:E; auto; right;
    unfold WS.socket in E; eapply WS.step_closing; try exact E; discriminate.
Qed.

(** ** The API client *)

(** X19.  [API.request] hands data to its caller only for a response with
    a status from 200 to 299 whose body parses; the data is that body. *)
Theorem request_resolves_only_ok {A : Type} (fetched : API.Fetched A) (d : A) :
  API.request fetched = inr d ->
  exists status parsed,
    fetched = API.Response status (inr parsed)
    /\ 200 <= status <= 299 /\ API.data parsed = d.
Proof.
  unfold API.request, API.request_try.
  destruct fetched as [error|status [error|parsed]].
  - destruct (_ && _); discriminate.
  - destruct (status =? 429); [discriminate|].
    destruct (500 <=? status); [discriminate|].
    destruct (_ && _); discriminate.
  - destruct (status =? 429); [discriminate|].
    destruct (500 <=? status); [discriminate|].
    destruct (API.ok status) eqn:Eok; simpl; [|discriminate].
    intros H. injection H as <-. exists status, parsed.
    unfold API.ok in Eok. apply andb_true_iff in Eok as [H1 H2].
    apply Z.leb_le in H1. apply Z.leb_le in H2. repeat split; assumption.
Qed.

Lemma request_resolves_only_ok_witness :
  exists status parsed,
    API.Response 200 (inr (API.mkParsed (mkSendResponse None) None))
    = API.Response status (inr parsed)
    /\ 200 <= status <= 299 /\ API.data parsed = mkSendResponse None.
Proof.
  exact (request_resolves_only_ok
           (API.Response 200 (inr (API.mkParsed (mkSendResponse None) None)))
           (mkSendResponse None) eq_refl).
Defined.

(** The completion of a send whose request was rejected, from any
    state. *)
Lemma sendMessage_complete_rejected (tempUserMsg : Message) (e : string)
  (s2 : State) :
  exists s',
    sendMessage_complete tempUserMsg (Rejected e) s2 = (Normal tt, s')
    /\ toasts s'
       = ((if Utils.truthy e then e else "Failed to send message"), "error")
           :: toasts s2
    /\ messagesContainer s'
       = match querySelector (idEquals (datasetString (id tempUserMsg)))
                 (messagesContainer s2) with
         | Some k => updateWrapper k markFailed (messagesContainer s2)
         | None => messagesContainer s2
         end
    /\ isSending s' = false.
Proof.
  unfold sendMessage_complete, tryFinally, tryCatch, sendMessage_try, throw.
  destruct (sendMessage_catch_normal tempUserMsg e s2) as [s3 [E [Ht Hm]]].
  rewrite E. eexists. split; [reflexivity|].
  unfold sendMessage_finally, handleInputChange. simpl. auto.
Qed.

(** X20.  Rate limiting and server errors reach the user in words of the
    client's own.  When the server answers a send with status 429, or with a
    status of 500 or more, whatever the body and in whatever state the page
    is when the answer arrives, the call returns normally with the guard
    released, the toast "Too many messages..." or "Server error..." is shown,
    and no child of the list is removed: the first wrapper that carries the
    provisional id of the call, if one is in the list at that moment, is
    flagged [failed], and nothing else changes in the list. *)
Theorem sendMessage_server_refusal (tempUserMsg : Message) (status : Z)
  (json : API.JsError + API.Parsed SendResponse) (s2 : State) :
  status = 429 \/ 500 <= status ->
  exists s',
    sendMessage_complete tempUserMsg
      (API.settle (API.request (API.Response status json))) s2 = (Normal tt, s')
    /\ toasts s'
       = ((if status =? 429 then API.tooManyMessages else API.serverError), "error")
           :: toasts s2
    /\ messagesContainer s'
       = match querySelector (idEquals (datasetString (id tempUserMsg)))
                 (messagesContainer s2) with
         | Some k => updateWrapper k markFailed (messagesContainer s2)
         | None => messagesContainer s2
         end
    /\ isSending s' = false.
Proof.
  intros Hst.
  assert (R : API.settle (API.request (API.Response status json))
              = Rejected (if status =? 429 then API.tooManyMessages
                          else API.serverError)).
  { unfold API.request, API.request_try.
    destruct (status =? 429) eqn:E1; [reflexivity|].
    destruct (500 <=? status) eqn:E2; [reflexivity|].
    apply Z.eqb_neq in E1. apply Z.leb_gt in E2. lia. }
  rewrite R.
  destruct (sendMessage_complete_rejected tempUserMsg
              (if status =? 429 then API.tooManyMessages else API.serverError) s2)
    as [s' [E [Ht [Hm Hg]]]].
  exists s'. split; [exact E|]. split; [|split; [exact Hm|exact Hg]].
  rewrite Ht. destruct (status =? 429); reflexivity.
Qed.

Lemma sendMessage_server_refusal_witness :
  exists s',
    sendMessage_complete (mkMessage (Some "temp-1") user "Hi" 1 [])
      (API.settle (API.request (API.Response 503 (inl (API.mkError "SyntaxError" "")))))
      (snd (sendMessage_begin (Some "Hi") 1 1 freshPage)) = (Normal tt, s')
    /\ toasts s'
       = ((if 503 =? 429 then API.tooManyMessages else API.serverError), "error")
           :: toasts (snd (sendMessage_begin (Some "Hi") 1 1 freshPage))
    /\ messagesContainer s'
       = match querySelector
                 (idEquals (datasetString (id (mkMessage (Some "temp-1") user "Hi" 1 []))))
                 (messagesContainer (snd (sendMessage_begin (Some "Hi") 1 1 freshPage)))
         with
         | Some k =>
             updateWrapper k markFailed
               (messagesContainer (snd (sendMessage_begin (Some "Hi") 1 1 freshPage)))
         | None => messagesContainer (snd (sendMessage_begin (Some "Hi") 1 1 freshPage))
         end
    /\ isSending s' = false.
Proof.
  apply (sendMessage_server_refusal (mkMessage (Some "temp-1") user "Hi" 1 []) 503
           (inl (API.mkError "SyntaxError" ""))
           (snd (sendMessage_begin (Some "Hi") 1 1 freshPage))).
  right. lia.
Defined.

(** X21.  A [fetch] that rejects with a [TypeError] whose message mentions
    "fetch" is reported as "Unable to connect to server..."; every other
    rejection of [fetch] reaches the caller with the message it had. *)
Theorem request_network_failure {A : Type} (error : API.JsError) :
  (API.name error = "TypeError" -> API.includes "fetch" (API.message error) = true ->
   @API.settle A (API.request (API.FetchRejected error))
   = Rejected API.unableToConnect)
  /\ (API.name error <> "TypeError"
      \/ API.includes "fetch" (API.message error) = false ->
      @API.settle A (API.request (API.FetchRejected error))
      = Rejected (API.message error)).
Proof.
  unfold API.request, API.request_try. split.
  - intros Hn Hi. rewrite Hn, Hi. reflexivity.
  - intros [Hn|Hi].
    + apply String.eqb_neq in Hn. rewrite Hn. reflexivity.
    + rewrite Hi, andb_false_r. reflexivity.
Qed.

Lemma request_network_failure_witness :
  @API.settle SendResponse
    (API.request (API.FetchRejected (API.mkError "TypeError" "Failed to fetch")))
  = Rejected API.unableToConnect.
Proof.
  exact (proj1 (request_network_failure (API.mkError "TypeError" "Failed to fetch"))
           eq_refl eq_refl).
Defined.

(** ** Throttling *)

(** X22.  A throttled function runs at most once more than its timer has
    expired: between two runs the timer of the first has run out. *)
Theorem throttle_runs_bounded (inThrottle : bool) (es : list ThrottleEvent) :
  (throttledRuns inThrottle es
   <= (if inThrottle then 0 else 1) + List.length (filter isExpiry es))%nat.
Proof.
  revert inThrottle. induction es as [|e es IH]; intros inThrottle; simpl.
  - destruct inThrottle; lia.
  - destruct e; simpl.
    + destruct inThrottle; simpl; specialize (IH true); simpl in IH; lia.
    + specialize (IH false). simpl in IH. destruct inThrottle; lia.
Qed.

(** ** A conversation keeps its dividers exact *)

Lemma tryFinally_keeps {A} (P : State -> Prop) (body : M A)
  (cleanup : State -> State) (s : State) :
  P (snd (body s)) -> (forall s', P s' -> P (cleanup s')) ->
  P (snd (tryFinally body cleanup s)).
Proof.
  intros Hb Hc. unfold tryFinally. destruct (body s) as [c s']. simpl in *. auto.
Qed.

Lemma markFailed_stamp (w : Wrapper) : stamp (markFailed w) = stamp w.
Proof. reflexivity. Qed.

Lemma sendMessage_begin_invariant (text : option string) (dateNow newDate : Z)
  (s : State) :
  appendInvariant s ->
  appendInvariant (snd (sendMessage_begin text dateNow newDate s)).
Proof.
  intros H. unfold sendMessage_begin.
  apply bind_keeps; [exact H|]. intros s0 s1 H1.
  destruct (negb (Utils.truthy (contentToSend text s0)) || isSending s0);
    [exact H1|].
  rewrite !bind_modify.
  apply bind_keeps.
  - apply addMessage_append_invariant. exact H1.
  - intros _ s2 H2. apply bind_keeps; [exact H2|]. intros _ s3 H3.
    apply bind_keeps; [destruct (negb (textGiven text)); exact H3|].
    intros _ s4 H4. exact H4.
Qed.

Lemma sendMessage_complete_invariant (tempUserMsg : Message)
  (settled : Settled SendResponse) (s : State) :
  appendInvariant s ->
  appendInvariant (snd (sendMessage_complete tempUserMsg settled s)).
Proof.
  intros H. unfold sendMessage_complete.
  apply tryFinally_keeps; [|intros s' Hs'; exact Hs'].
  apply tryCatch_keeps.
  - unfold sendMessage_try. destruct settled as [response|e]; [|exact H].
    apply bind_keeps; [exact H|]. intros _ s1 H1.
    apply bind_keeps; [|intros _ s2 H2; exact H2].
    destruct (assistant_message response) as [m|]; [|exact H1].
    apply addMessage_append_invariant. exact H1.
  - intros e s' Hs'. unfold sendMessage_catch.
    apply bind_keeps; [exact Hs'|]. intros _ s1 H1.
    apply bind_keeps; [exact H1|]. intros s2 s3 H3.
    apply bind_keeps; [|intros _ s4 H4; exact H4].
    destruct (querySelector _ (messagesContainer s2)) as [k|]; [|exact H3].
    destruct H3 as [HE HL]. unfold modify. cbn [snd].
    destruct (updateWrapper_dates markFailed k (messagesContainer s3)
                markFailed_stamp) as [A B].
    split; cbn; unfold dividersExact; [now rewrite A|now rewrite B].
Qed.

Lemma sendMessage_invariant (text : option string) (dateNow newDate : Z)
  (settled : Settled SendResponse) (s : State) :
  appendInvariant s ->
  appendInvariant (execute (sendMessage text dateNow newDate settled) s).
Proof.
  intros H. unfold execute, sendMessage. apply bind_keeps.
  - now apply sendMessage_begin_invariant.
  - intros [tmp|] s' Hs'; [|exact Hs'].
    now apply sendMessage_complete_invariant.
Qed.

(** X23.  A conversation that only adds at the end keeps its dividers
    exact.  Starting from a cleared chat, after any sequence of first loads
    and sends, whichever way their requests settle (replies shown, sends
    failed and flagged, unreadable replies), a date divider sits between two
    adjacent messages exactly when their days differ and nowhere else, and
    [lastMessageDate] is the day of the last message shown. *)
Theorem session_dividers_exact (steps : list SessionStep) (s : State) :
  cleared s ->
  dividersExact (messagesContainer (session steps s)) = true
  /\ lastMessageDate (session steps s)
     = lastDateFrom None (messagesContainer (session steps s)).
Proof.
  intros Hc. apply cleared_appendInvariant in Hc. revert s Hc.
  induction steps as [|step steps IH]; intros s H; [exact H|].
  simpl. apply IH. destruct step as [settled|text dateNow newDate settled]; simpl.
  - now apply loadMessages_dividers_exact.
  - now apply sendMessage_invariant.
Qed.

Lemma session_dividers_exact_witness :
  dividersExact
    (messagesContainer
       (session [FirstLoad (Fulfilled latestPage);
                 Send (Some "Hi") 200000000 200000000 (Rejected "offline")]
          freshPage)) = true.
Proof.
  exact (proj1 (session_dividers_exact
                  [FirstLoad (Fulfilled latestPage);
                   Send (Some "Hi") 200000000 200000000 (Rejected "offline")]
                  freshPage (conj eq_refl eq_refl))).
Defined.

(** ** Sending from the input field *)

Lemma trimStart_blank (s : string) :
  Utils.trimStart s = "" <-> Utils.forallb_string Utils.isWhiteSpace s = true.
Proof.
  induction s as [|c s IH]; simpl; [tauto|].
  destruct (Utils.isWhiteSpace c) eqn:E; simpl; [exact IH|].
  split; discriminate.
Qed.

Lemma trimStart_head (s : string) (c : ascii) (r : string) :
  Utils.trimStart s = String c r -> Utils.isWhiteSpace c = false.
Proof.
  induction s as [|c0 s IH]; simpl; [discriminate|].
  destruct (Utils.isWhiteSpace c0) eqn:E; [exact IH|].
  intros H. injection H as <- _. exact E.
Qed.

Lemma trimEnd_head (c : ascii) (r : string) :
  Utils.isWhiteSpace c = false -> Utils.trimEnd (String c r) <> "".
Proof.
  intros H. simpl. destruct (Utils.trimEnd r); [rewrite H|]; discriminate.
Qed.

(** The trimmed text is empty exactly for text made of white space. *)
Lemma trim_blank (s : string) :
  Utils.trim s = "" <-> Utils.forallb_string Utils.isWhiteSpace s = true.
Proof.
  unfold Utils.trim. rewrite <- trimStart_blank.
  destruct (Utils.trimStart s) as [|c r] eqn:E; [simpl; tauto|].
  split; [|discriminate]. intros H. exfalso.
  exact (trimEnd_head c r (trimStart_head s c r E) H).
Qed.

(** X24.  A send from the input field (no text passed in) is turned away
    exactly when a send is outstanding or the field holds nothing but white
    space; when it is turned away nothing changes. *)
Theorem sendMessage_from_field (dateNow newDate : Z) (s : State) :
  (isSending s = true
   \/ Utils.forallb_string Utils.isWhiteSpace (inputValue s) = true ->
   sendMessage_begin None dateNow newDate s = (Normal None, s))
  /\ (isSending s = false ->
      Utils.forallb_string Utils.isWhiteSpace (inputValue s) = false ->
      fst (sendMessage_begin None dateNow newDate s)
      = Normal (Some (mkMessage (Some (tempId dateNow)) user
                        (Utils.trim (inputValue s)) newDate []))).
Proof.
  split.
  - intros [H|H]; [now apply sendMessage_begin_guarded|].
    apply sendMessage_begin_empty. simpl. apply trim_blank in H. now rewrite H.
  - intros Hs Hb.
    assert (Hc : Utils.truthy (contentToSend None s) = true).
    { simpl. destruct (Utils.trim (inputValue s)) eqn:E; [|reflexivity].
      apply trim_blank in E. congruence. }
    destruct (sendMessage_begin_accepted None dateNow newDate s Hs Hc)
      as [dv [s1 [_ [E _]]]].
    rewrite E. reflexivity.
Qed.

Lemma sendMessage_from_field_witness :
  sendMessage_begin None 1 1 (set_inputValue "   " freshPage)
  = (Normal None, set_inputValue "   " freshPage).
Proof.
  exact (proj1 (sendMessage_from_field 1 1 (set_inputValue "   " freshPage))
           (or_intror eq_refl)).
Defined.

(** ** From the first load to the first older page *)

Lemma sameSession_refl (s : State) : sameSession s s.
Proof. repeat split. Qed.

Lemma addMessage_sameSession (m : Message) (prepend : bool) (s s' : State) :
  sameSession s s' -> sameSession s (snd (addMessage m prepend s')).
Proof.
  intros [H1 [H2 [H3 [H4 [H5 [H6 H7]]]]]].
  destruct (addMessage_frame_holds m prepend s')
    as [F1 [F2 [F3 [F4 [F5 [F6 [F7 [F8 [F9 [F10 [F11 F12]]]]]]]]]]].
  repeat split; congruence.
Qed.

Lemma forEach_sameSession (ms : list Message) (acc : M unit) (s s0 : State) :
  sameSession s (snd (acc s0)) ->
  sameSession s
    (snd (fold_left (fun acc message => acc ;; addMessage message false) ms acc s0)).
Proof.
  revert acc. induction ms as [|m ms IH]; intros acc Ha; simpl; [exact Ha|].
  apply IH. apply bind_keeps; [exact Ha|].
  intros _ s' Hs'. now apply addMessage_sameSession.
Qed.

Lemma loadMessages_sameSession (settled : Settled PageResponse) (s : State) :
  sameSession s (snd (loadMessages_complete settled s)).
Proof.
  unfold loadMessages_complete.
  apply tryCatch_keeps; [|intros e s' Hs'; exact Hs'].
  destruct settled as [response|e]; [|apply sameSession_refl].
  destruct (messages response) as [|first rest]; [apply sameSession_refl|].
  rewrite !bind_modify. apply bind_keeps.
  - apply forEach_sameSession. repeat split.
  - intros _ s' Hs'. exact Hs'.
Qed.

Section FirstOlderPage.

Variable scrollHeight : list Node -> Z.

(** X25.  After the first load has shown a page of confirmed messages
    whose first id is not empty and the server has said there is more, the
    first call of
    [loadOlderMessages] asks for the 20 messages before the first message of
    that page, for the user whose id is stored. *)
Theorem loadMessages_then_older (response : PageResponse) (first : Message)
  (rest : list Message) (uid : string) (s : State) :
  messages response = first :: rest ->
  forallb confirmed (messages response) = true ->
  truthyId (id first) = true ->
  has_more response = true ->
  isLoadingMore s = false ->
  storedUserId s = Some uid -> Utils.truthy uid = true ->
  requests
    (snd (loadOlderMessages_begin scrollHeight
            (snd (loadMessages_complete (Fulfilled response) s))))
  = GetMessages uid (id first) 20 :: requests s.
Proof.
  intros Hm Hc Hid Hh Hl Hu Ht.
  destruct (loadMessages_shows_page_holds response first rest s Hm Hc)
    as [s' [E [_ [_ [Ho [Hmore _]]]]]].
  pose proof (loadMessages_sameSession (Fulfilled response) s)
    as [_ [_ [S3 [_ [S5 [S6 _]]]]]].
  rewrite E in *. cbn [snd] in *.
  unfold loadOlderMessages_begin. unfold_js.
  rewrite S3, Hl, Hmore, Hh, Ho, Hid. simpl. rewrite S6, Hu. simpl. rewrite Ht.
  simpl. now rewrite Ho, S5.
Qed.

End FirstOlderPage.

Lemma loadMessages_then_older_witness :
  requests
    (snd (loadOlderMessages_begin rowLayout
            (snd (loadMessages_complete (Fulfilled latestPage) freshPage))))
  = GetMessages "u1" (Some "m10") 20 :: requests freshPage.
Proof.
  exact (loadMessages_then_older rowLayout latestPage
           (mkMessage (Some "m10") assistant "Welcome" 90000000 []) [] "u1"
           freshPage eq_refl eq_refl eq_refl eq_refl eq_refl eq_refl eq_refl).
Defined.
